(** * Supplier recommendation: the scoring engine of the microservice and of
      the interactive program

    The development embeds [SupplierRecommender.recommend_suppliers] of
    [microservice/model_handler.py], the [/recommend] handler of
    [microservice/app.py] and [SupplierRecommender.recommend_suppliers] of
    [supplier_recommendation.py].

    Numbers.  The development has two layers.  In the first, Python
    [float]s and numpy [float64]s are idealised as exact rationals ([Q]),
    [int]s are [Z], and [round(x, n)] is rounding to the nearest multiple of
    [10^-n], ties to the even one, on the exact value; it carries the
    properties of the structure of the result: its order, one entry per
    supplier, the range of the scores, the product lists, the menu and
    the questions, the status codes.  In the second, the module [Double],
    the same programs run on IEEE 754 binary64 values with Python's and
    numpy's own [round] and with [OverflowError] for an integer that no
    double holds; it carries the properties of the reported numbers, of
    the levels, of the errors and of the two programs side by side.  The
    conversions [float(..)], [int(..)] and [bool(..)] that the
    microservice applies to numpy scalars do not change a value; only the
    kind of the number that is then rounded is kept, in [Double.Cli].

    Collaborators.  The loaded artefacts (classifier, label encoders, target
    encoder, feature names, dataset) are the fields of a record standing for
    [self]; the classifier is an opaque function that may raise.  The month
    read from the clock is an explicit argument. *)

From Stdlib Require Import ZArith QArith Qround Lia Lqa Bool List Sorted Permutation.
From Stdlib Require Import DecimalString SpecFloat.
From stdpp Require Import base gmap strings list fin_maps.

Local Open Scope Z_scope.
Local Open Scope Q_scope.

(** ** Rounding *)

Module Rounding.

(** Nearest integer, ties to even. *)
Definition round_half_even (x : Q) : Z :=
  let f := Qfloor x in
  match Qcompare (x - inject_Z f) (1 # 2) with
  | Lt => f
  | Gt => (f + 1)%Z
  | Eq => if Z.even f then f else (f + 1)%Z
  end.

Definition pow10 (ndigits : nat) : Q := inject_Z (10 ^ Z.of_nat ndigits).

(** [round(x, ndigits)] *)
Definition round (x : Q) (ndigits : nat) : Q :=
  inject_Z (round_half_even (x * pow10 ndigits)) / pow10 ndigits.

End Rounding.

(** ** Exceptions

    A computation either returns or raises; [let*] is sequencing. *)

(** The two messages of the [KeyError] that [df[names]] raises: none of
    the names is a column, or some are not, which it lists once each. *)
Inductive key_error : Type :=
| NoneOf (key : list string)
| NotInIndex (not_found : list string).

Inductive exn : Type :=
| KeyError (message : key_error)
| IndexError
| ModelError.

Inductive outcome (A : Type) : Type :=
| Returns (a : A)
| Raises (e : exn).

Arguments Returns {A} a.
Arguments Raises {A} e.

Definition bind {A B : Type} (c : outcome A) (k : A -> outcome B) : outcome B :=
  match c with
  | Returns a => k a
  | Raises e => Raises e
  end.

Notation "'let*' x ':=' c 'in' k" := (bind c (fun x => k))
  (at level 10, x name, c at level 100, k at level 200).

(** A [for] loop that appends one computed item per element and stops at the
    first exception. *)
Fixpoint for_each {A B : Type} (body : A -> outcome B) (l : list A) : outcome (list B) :=
  match l with
  | [] => Returns []
  | a :: l' =>
      let* b := body a in
      let* bs := for_each body l' in
      Returns (b :: bs)
  end.

(** ** The catalog: one row of the dataset *)

Module Offer.

Record t : Type := Build {
  product_type : string;
  supplier_name : string;
  country : string;
  quality_rating : Q;
  price_usd : Q;
  delivery_days : Z;
  payment_terms_days : Z;
  shipping_included : bool;
  express_available : bool;
  incoterms : string
}.

End Offer.

(** ** The pandas and numpy operations the code uses *)

(** A value of a one-row [DataFrame] column. *)
Inductive cell : Type :=
| CInt (n : Z)
| CFloat (x : Q)
| CStr (s : string).

(** What the code reads from the running interpreter: the month of
    [datetime.now()] and the text [str] gives for a float. *)
Record Ambient : Type := {
  now_month : Z;
  str_of_float : Q -> string
}.

Module Pandas.

(** [df[df[col] == value]] *)
Definition where_eq (col : Offer.t -> string) (value : string) (df : list Offer.t) : list Offer.t :=
  List.filter (fun row => String.eqb (col row) value) df.

(** [series.unique()]: the values in order of first appearance. *)
Fixpoint unique (values : list string) : list string :=
  match values with
  | [] => []
  | v :: rest => v :: List.filter (fun w => negb (String.eqb w v)) (unique rest)
  end.

(** [df.empty] *)
Definition empty (df : list Offer.t) : bool :=
  match df with
  | [] => true
  | _ :: _ => false
  end.

(** [df.iloc[0]] *)
Definition iloc0 (df : list Offer.t) : outcome Offer.t :=
  match df with
  | [] => Raises IndexError
  | row :: _ => Returns row
  end.

(** [str(n)] for an integer. *)
Definition str_of_int (n : Z) : string := NilZero.string_of_int (Z.to_int n).

(** One value of [column.astype(str)]. *)
Definition astype_str (amb : Ambient) (c : cell) : string :=
  match c with
  | CInt n => str_of_int n
  | CFloat x => str_of_float amb x
  | CStr s => s
  end.

(** The columns [names], when each is a column. *)
Fixpoint columns (input_data : gmap string cell) (names : list string) : option (list cell) :=
  match names with
  | [] => Some []
  | name :: rest =>
      match input_data !! name, columns input_data rest with
      | Some c, Some cs => Some (c :: cs)
      | _, _ => None
      end
  end.

(** [input_data[names]]: the columns [names] in that order, [KeyError]
    when a name is not a column. *)
Definition select_columns (input_data : gmap string cell) (names : list string) : outcome (list cell) :=
  match columns input_data names with
  | Some cells => Returns cells
  | None =>
      let missing :=
        List.filter (fun name =>
          match input_data !! name with Some _ => false | None => true end) names in
      if Nat.eqb (length missing) (length names)
      then Raises (KeyError (NoneOf names))
      else Raises (KeyError (NotInIndex (unique missing)))
  end.

End Pandas.

Module Numpy.

(** [np.where(classes_ == name)[0]], reduced to its first index. *)
Fixpoint where_first (classes_ : list string) (name : string) : option nat :=
  match classes_ with
  | [] => None
  | c :: rest =>
      if String.eqb c name then Some O
      else option_map S (where_first rest name)
  end.

(** [array[i]] *)
Definition getitem (array : list Q) (i : nat) : outcome Q :=
  match nth_error array i with
  | Some x => Returns x
  | None => Raises IndexError
  end.

End Numpy.

(** scikit-learn's [LabelEncoder]: [classes_] and [transform] on one value;
    [None] is the [ValueError] for a label not seen in training. *)
Module LabelEncoder.

Definition transform (classes_ : list string) (value : string) : option Z :=
  option_map Z.of_nat (Numpy.where_first classes_ value).

End LabelEncoder.

(** [list.sort(key=key, reverse=True)]: descending by key, elements with
    equal keys stay in their order. *)
Module PyList.

Fixpoint insert_desc {A : Type} (key : A -> Q) (x : A) (sorted : list A) : list A :=
  match sorted with
  | [] => [x]
  | y :: rest =>
      if Qle_bool (key y) (key x) then x :: y :: rest
      else y :: insert_desc key x rest
  end.

Fixpoint sort_reverse {A : Type} (key : A -> Q) (l : list A) : list A :=
  match l with
  | [] => []
  | x :: rest => insert_desc key x (sort_reverse key rest)
  end.

End PyList.

(** ** The loaded system ([self]) and the values it returns *)

Record SupplierRecommender : Type := {
  (** [model.predict_proba(input_data)[0]] *)
  model : list cell -> outcome (list Q);
  (** feature name to the [classes_] of its encoder *)
  label_encoders : gmap string (list string);
  (** [target_encoder.classes_] *)
  target_encoder : list string;
  feature_names : list string;
  df : list Offer.t
}.

(** One recommendation dictionary. *)
Module Rec.

Record t : Type := Build {
  supplier_name : string;
  country : string;
  quality_rating : Q;
  price_usd : Q;
  total_cost : Q;
  delivery_days : Z;
  payment_terms_days : Z;
  probability_score : Q;
  within_budget : bool;
  shipping_included : bool;
  express_available : bool;
  final_score : Q;
  recommendation_level : string
}.

End Rec.

(** The dictionary returned on success. *)
Module Envelope.

Record t : Type := Build {
  product_type : string;
  urgency : string;
  quantity : Z;
  budget : Q;
  recommendations : list Rec.t;
  total_options : nat
}.

End Envelope.

(** The payload of the [{"error": ...}] dictionary: which message, and the
    list the message prints. *)
Inductive error : Type :=
| UrgenciaDebeSerUnaDe (valid_urgencies : list string)
| ProductoNoEncontrado (available_types : list string).

Inductive response : Type :=
| ErrorDict (e : error)
| Result (env : Envelope.t).

Definition valid_urgencies : list string := ["Low"; "Medium"; "High"; "Critical"].

(** [x in l] for strings. *)
Definition str_in (x : string) (l : list string) : bool :=
  List.existsb (String.eqb x) l.

(** ** [microservice/model_handler.py] *)

Module Api.

(** # Crear input para el modelo *)
Definition input_frame (amb : Ambient) (supplier_data : Offer.t)
    (product_type urgency : string) (quantity : Z) (budget : Q) : gmap string cell :=
  list_to_map [
    ("price_usd", CFloat (Offer.price_usd supplier_data));
    ("delivery_days", CInt (Offer.delivery_days supplier_data));
    ("payment_terms_days", CInt (Offer.payment_terms_days supplier_data));
    ("shipping_included", CInt (Z.b2z (Offer.shipping_included supplier_data)));
    ("express_available", CInt (Z.b2z (Offer.express_available supplier_data)));
    ("order_urgency", CStr urgency);
    ("quantity_needed", CInt quantity);
    ("budget_available", CFloat budget);
    ("product_type", CStr product_type);
    ("incoterms", CStr (Offer.incoterms supplier_data));
    ("month", CInt (now_month amb));
    ("quarter", CStr ("Q" ++ Pandas.str_of_int ((now_month amb - 1) / 3 + 1)))
  ].

(** # Aplicar encoding *)
Definition apply_encoding (self : SupplierRecommender) (amb : Ambient)
    (input_data : gmap string cell) : gmap string cell :=
  map_fold (fun feature classes_ input_data =>
      match input_data !! feature with
      | Some column =>
          match LabelEncoder.transform classes_ (Pandas.astype_str amb column) with
          | Some code => <[feature := CInt code]> input_data
          | None => <[feature := CInt 0]> input_data
          end
      | None => input_data
      end) input_data (label_encoders self).

(** # Reordenar columnas, # Predicción *)
Definition predict (self : SupplierRecommender) (input_data : gmap string cell)
    (supplier_name : string) : outcome Q :=
  let* input_data := Pandas.select_columns input_data (feature_names self) in
  let* probabilities := model self input_data in
  match Numpy.where_first (target_encoder self) supplier_name with
  | Some supplier_idx => Numpy.getitem probabilities supplier_idx
  | None => Returns 0.0
  end.

(** The body of the loop over the suppliers. *)
Definition recommend_one (self : SupplierRecommender) (amb : Ambient)
    (product_type urgency : string) (quantity : Z) (budget : Q)
    (available_products : list Offer.t) (supplier_name : string) : outcome Rec.t :=
  let* supplier_data :=
    Pandas.iloc0 (Pandas.where_eq Offer.supplier_name supplier_name available_products) in
  let input_data := input_frame amb supplier_data product_type urgency quantity budget in
  let input_data := apply_encoding self amb input_data in
  let* probability := predict self input_data supplier_name in
  let total_cost := Offer.price_usd supplier_data * inject_Z quantity in
  let total_cost :=
    if negb (Offer.shipping_included supplier_data) then total_cost + 300 else total_cost in
  let r_quality_rating := Offer.quality_rating supplier_data in
  let r_delivery_days := Offer.delivery_days supplier_data in
  let r_payment_terms_days := Offer.payment_terms_days supplier_data in
  let r_probability_score := Rounding.round probability 3 in
  let r_within_budget := Qle_bool total_cost budget in
  let quality_score := r_quality_rating / 5.0 in
  let price_score := if r_within_budget then 1.0 else 0.5 in
  let delivery_score := if (r_delivery_days <=? 15)%Z then 1.0 else 0.7 in
  let payment_score := if (r_payment_terms_days >? 0)%Z then 1.0 else 0.8 in
  let final_score :=
    r_probability_score * 0.4 +
    quality_score * 0.25 +
    price_score * 0.2 +
    delivery_score * 0.1 +
    payment_score * 0.05 in
  Returns {|
    Rec.supplier_name := supplier_name;
    Rec.country := Offer.country supplier_data;
    Rec.quality_rating := r_quality_rating;
    Rec.price_usd := Offer.price_usd supplier_data;
    Rec.total_cost := Rounding.round total_cost 2;
    Rec.delivery_days := r_delivery_days;
    Rec.payment_terms_days := r_payment_terms_days;
    Rec.probability_score := r_probability_score;
    Rec.within_budget := r_within_budget;
    Rec.shipping_included := Offer.shipping_included supplier_data;
    Rec.express_available := Offer.express_available supplier_data;
    Rec.final_score := Rounding.round final_score 3;
    Rec.recommendation_level :=
      if Qle_bool 0.75 final_score then "Altamente Recomendado"
      else if Qle_bool 0.6 final_score then "Recomendado"
      else if Qle_bool 0.45 final_score then "Aceptable"
      else "No Recomendado"
  |}.

Definition recommend_suppliers (self : SupplierRecommender) (amb : Ambient)
    (product_type urgency : string) (quantity : Z) (budget : Q) : outcome response :=
  if negb (str_in urgency valid_urgencies) then
    Returns (ErrorDict (UrgenciaDebeSerUnaDe valid_urgencies))
  else
    let available_products := Pandas.where_eq Offer.product_type product_type (df self) in
    if Pandas.empty available_products then
      let available_types := Pandas.unique (List.map Offer.product_type (df self)) in
      Returns (ErrorDict (ProductoNoEncontrado available_types))
    else
      let* recommendations :=
        for_each
          (recommend_one self amb product_type urgency quantity budget available_products)
          (Pandas.unique (List.map Offer.supplier_name available_products)) in
      let recommendations := PyList.sort_reverse Rec.final_score recommendations in
      Returns (Result {|
        Envelope.product_type := product_type;
        Envelope.urgency := urgency;
        Envelope.quantity := quantity;
        Envelope.budget := budget;
        Envelope.recommendations := recommendations;
        Envelope.total_options := length recommendations
      |}).

End Api.

(** ** [microservice/app.py]: the [/recommend] handler *)

Module App.

Record RecommendationRequest : Type := {
  product_type : string;
  urgency : string;
  quantity : Z;
  budget : Q
}.

(** What the handler can raise, with the [detail] of an [HTTPException]
    kept as the message chosen and the value printed in it. *)
Inductive exception : Type :=
| PyException (e : exn)
| HTTPException (status_code : Z) (d : detail)
with detail : Type :=
| SistemaNoInicializado
| UrgenciaDebeSerUnaDe (valid_urgencies : list string)
| CantidadDebeSerMayorA0
| PresupuestoDebeSerMayorA0
| ResultError (e : error)
| ErrorEnRecomendacion (cause : exception).

(** The handler returns the result or raises an [HTTPException]. *)
Inductive reply : Type :=
| Ok (result : Envelope.t)
| Fails (e : exception).

(** The body of the [try]. *)
Definition try_recommend (recommender : SupplierRecommender) (amb : Ambient)
    (request : RecommendationRequest) : reply :=
  match Api.recommend_suppliers recommender amb (product_type request) (urgency request)
          (quantity request) (budget request) with
  | Raises e => Fails (PyException e)
  | Returns (ErrorDict e) => Fails (HTTPException 400 (ResultError e))
  | Returns (Result result) => Ok result
  end.

Definition recommend_suppliers (recommender : option SupplierRecommender) (amb : Ambient)
    (request : RecommendationRequest) : reply :=
  match recommender with
  | None => Fails (HTTPException 500 SistemaNoInicializado)
  | Some recommender =>
      let valid_urgencies := ["Low"; "Medium"; "High"; "Critical"] in
      if negb (str_in (urgency request) valid_urgencies) then
        Fails (HTTPException 400 (UrgenciaDebeSerUnaDe valid_urgencies))
      else if (quantity request <=? 0)%Z then
        Fails (HTTPException 400 CantidadDebeSerMayorA0)
      else if Qle_bool (budget request) 0 then
        Fails (HTTPException 400 PresupuestoDebeSerMayorA0)
      else
        match try_recommend recommender amb request with
        | Ok result => Ok result
        | Fails e => Fails (HTTPException 500 (ErrorEnRecomendacion e))
        end
  end.

End App.

(** ** [supplier_recommendation.py] *)

Module Cli.

(** # FEATURES LIMPIAS (sin country/quality_rating) *)
Definition input_frame (amb : Ambient) (supplier_data : Offer.t)
    (product_type urgency : string) (quantity : Z) (budget : Q) : gmap string cell :=
  list_to_map [
    ("price_usd", CFloat (Offer.price_usd supplier_data));
    ("delivery_days", CInt (Offer.delivery_days supplier_data));
    ("payment_terms_days", CInt (Offer.payment_terms_days supplier_data));
    ("shipping_included", CInt (Z.b2z (Offer.shipping_included supplier_data)));
    ("express_available", CInt (Z.b2z (Offer.express_available supplier_data)));
    ("order_urgency", CStr urgency);
    ("quantity_needed", CInt quantity);
    ("budget_available", CFloat budget);
    ("product_type", CStr product_type);
    ("incoterms", CStr (Offer.incoterms supplier_data));
    ("month", CInt (now_month amb));
    ("quarter", CStr ("Q" ++ Pandas.str_of_int ((now_month amb - 1) / 3 + 1)))
  ].

(** # Aplicar encoding *)
Definition apply_encoding (self : SupplierRecommender) (amb : Ambient)
    (input_data : gmap string cell) : gmap string cell :=
  map_fold (fun feature classes_ input_data =>
      match input_data !! feature with
      | Some column =>
          match LabelEncoder.transform classes_ (Pandas.astype_str amb column) with
          | Some code => <[feature := CInt code]> input_data
          | None => <[feature := CInt 0]> input_data
          end
      | None => input_data
      end) input_data (label_encoders self).

(** # Reordenar columnas según el modelo, # Obtener probabilidades de predicción *)
Definition predict (self : SupplierRecommender) (input_data : gmap string cell)
    (supplier_name : string) : outcome Q :=
  let* input_data := Pandas.select_columns input_data (feature_names self) in
  let* probabilities := model self input_data in
  match Numpy.where_first (target_encoder self) supplier_name with
  | Some supplier_idx => Numpy.getitem probabilities supplier_idx
  | None => Returns 0.0
  end.

(** The body of the loop over the suppliers. *)
Definition recommend_one (self : SupplierRecommender) (amb : Ambient)
    (product_type urgency : string) (quantity : Z) (budget : Q)
    (available_products : list Offer.t) (supplier_name : string) : outcome Rec.t :=
  let* supplier_data :=
    Pandas.iloc0 (Pandas.where_eq Offer.supplier_name supplier_name available_products) in
  let input_data := input_frame amb supplier_data product_type urgency quantity budget in
  let input_data := apply_encoding self amb input_data in
  let* probability := predict self input_data supplier_name in
  let total_cost := Offer.price_usd supplier_data * inject_Z quantity in
  let total_cost :=
    if negb (Offer.shipping_included supplier_data) then total_cost + 300 else total_cost in
  let r_quality_rating := Offer.quality_rating supplier_data in
  let r_delivery_days := Offer.delivery_days supplier_data in
  let r_payment_terms_days := Offer.payment_terms_days supplier_data in
  let r_probability_score := Rounding.round probability 3 in
  let r_within_budget := Qle_bool total_cost budget in
  let quality_score := r_quality_rating / 5.0 in
  let price_score := if r_within_budget then 1.0 else 0.5 in
  let delivery_score := if (r_delivery_days <=? 15)%Z then 1.0 else 0.7 in
  let payment_score := if (r_payment_terms_days >? 0)%Z then 1.0 else 0.8 in
  let final_score :=
    r_probability_score * 0.4 +
    quality_score * 0.25 +
    price_score * 0.2 +
    delivery_score * 0.1 +
    payment_score * 0.05 in
  Returns {|
    Rec.supplier_name := supplier_name;
    Rec.country := Offer.country supplier_data;
    Rec.quality_rating := r_quality_rating;
    Rec.price_usd := Offer.price_usd supplier_data;
    Rec.total_cost := Rounding.round total_cost 2;
    Rec.delivery_days := r_delivery_days;
    Rec.payment_terms_days := r_payment_terms_days;
    Rec.probability_score := r_probability_score;
    Rec.within_budget := r_within_budget;
    Rec.shipping_included := Offer.shipping_included supplier_data;
    Rec.express_available := Offer.express_available supplier_data;
    Rec.final_score := Rounding.round final_score 3;
    Rec.recommendation_level :=
      if Qle_bool 0.75 final_score then "⭐⭐⭐ Altamente Recomendado"
      else if Qle_bool 0.6 final_score then "⭐⭐ Recomendado"
      else if Qle_bool 0.45 final_score then "⭐ Aceptable"
      else "❌ No Recomendado"
  |}.

Definition recommend_suppliers (self : SupplierRecommender) (amb : Ambient)
    (product_type urgency : string) (quantity : Z) (budget : Q) : outcome response :=
  if negb (str_in urgency valid_urgencies) then
    Returns (ErrorDict (UrgenciaDebeSerUnaDe valid_urgencies))
  else
    let available_products := Pandas.where_eq Offer.product_type product_type (df self) in
    if Pandas.empty available_products then
      let available_types := Pandas.unique (List.map Offer.product_type (df self)) in
      Returns (ErrorDict (ProductoNoEncontrado available_types))
    else
      let* recommendations :=
        for_each
          (recommend_one self amb product_type urgency quantity budget available_products)
          (Pandas.unique (List.map Offer.supplier_name available_products)) in
      let recommendations := PyList.sort_reverse Rec.final_score recommendations in
      Returns (Result {|
        Envelope.product_type := product_type;
        Envelope.urgency := urgency;
        Envelope.quantity := quantity;
        Envelope.budget := budget;
        Envelope.recommendations := recommendations;
        Envelope.total_options := length recommendations
      |}).

End Cli.

(** ** Vocabulary of the statements *)

(** [row] is the first row of the dataset, in its order, that offers
    [product_type] from [supplier_name]. *)
Definition first_row (df : list Offer.t) (product_type supplier_name : string)
    (row : Offer.t) : Prop :=
  exists before after,
    df = before ++ row :: after /\
    Offer.product_type row = product_type /\
    Offer.supplier_name row = supplier_name /\
    forall row', In row' before ->
      ~ (Offer.product_type row' = product_type /\ Offer.supplier_name row' = supplier_name).

(** The cost of an order before it is rounded for the report. *)
Definition order_cost (row : Offer.t) (quantity : Z) : Q :=
  if Offer.shipping_included row
  then Offer.price_usd row * inject_Z quantity
  else Offer.price_usd row * inject_Z quantity + 300.

(** The weighted sum of the scores of a recommendation, from its own
    fields, before it is rounded for the report. *)
Definition weighted_sum (r : Rec.t) : Q :=
  0.4 * Rec.probability_score r +
  0.25 * (Rec.quality_rating r / 5.0) +
  0.2 * (if Rec.within_budget r then 1.0 else 0.5) +
  0.1 * (if (Rec.delivery_days r <=? 15)%Z then 1.0 else 0.7) +
  0.05 * (if (0 <? Rec.payment_terms_days r)%Z then 1.0 else 0.8).

(** The four tiers and their thresholds, evaluated high to low. *)
Inductive tier : Type := Highest | Second | Third | Lowest.

Definition tier_of_score (score : Q) : tier :=
  if Qle_bool 0.75 score then Highest
  else if Qle_bool 0.6 score then Second
  else if Qle_bool 0.45 score then Third
  else Lowest.

(** The text of a tier in the microservice. *)
Definition level_text (t : tier) : string :=
  match t with
  | Highest => "Altamente Recomendado"
  | Second => "Recomendado"
  | Third => "Aceptable"
  | Lowest => "No Recomendado"
  end.




(** The names of the columns of [input_data]. *)
Definition input_columns : list string :=
  ["price_usd"; "delivery_days"; "payment_terms_days"; "shipping_included";
   "express_available"; "order_urgency"; "quantity_needed"; "budget_available";
   "product_type"; "incoterms"; "month"; "quarter"].

(** ** A small system, for the examples *)

Definition demo_df : list Offer.t := [
  Offer.Build "filter_cloth_roll" "Alfa" "Italy" 4.5 100 10 30 true true "FOB";
  Offer.Build "filter_cloth_roll" "Beta" "Spain" 5.0 120 12 30 true false "CIF";
  Offer.Build "valve_butterfly" "Gamma" "Chile" 4.0 10.004 20 0 true false "EXW";
  Offer.Build "filter_cloth_roll" "Alfa" "Peru" 3.0 90 40 0 false false "FOB";
  Offer.Build "valve_butterfly" "Delta" "Peru" 3.5 400 7 15 false true "FOB"
].

Definition demo : SupplierRecommender := {|
  model := fun _ => Returns [0.0013; 0.374; 0.5];
  label_encoders := list_to_map [
    ("order_urgency", ["Critical"; "High"; "Low"; "Medium"]);
    ("product_type", ["filter_cloth_roll"]);
    ("incoterms", ["CIF"; "FOB"]);
    ("quarter", ["Q1"; "Q2"; "Q3"; "Q4"])
  ];
  target_encoder := ["Alfa"; "Beta"; "Gamma"];
  feature_names := input_columns;
  df := demo_df
|}.

Definition demo_ambient : Ambient := {|
  now_month := 11;
  str_of_float := fun _ => "0.0"
|}.

(** What the microservice reports for ["Beta"] when one filter cloth roll
    is asked for with a budget of 1000. *)
Definition demo_beta : Rec.t :=
  Rec.Build "Beta" "Spain" 5.0 120 120.00 12 30 0.374 true true false 0.750 "Recomendado".

(** The same for ["Alfa"], and the whole result. *)
Definition demo_alfa : Rec.t :=
  Rec.Build "Alfa" "Italy" 4.5 100 100.00 10 30 0.001 true true true 0.575 "Aceptable".

Definition demo_rolls : Envelope.t :=
  Envelope.Build "filter_cloth_roll" "Low" 1 1000 [demo_beta; demo_alfa] 2.

(** ** The product lists: [get_available_products] and the [/products] route *)

(** [sorted(l)] for strings: ascending, equal elements in their order. *)
Module Builtins.

Fixpoint insort (x : string) (sorted_part : list string) : list string :=
  match sorted_part with
  | [] => [x]
  | y :: rest =>
      if String.leb x y then x :: y :: rest
      else y :: insort x rest
  end.

Fixpoint sorted (l : list string) : list string :=
  match l with
  | [] => []
  | x :: rest => insort x (sorted rest)
  end.

End Builtins.

(** The dictionary [{'filtration': ..., 'sensors': ...}]. *)
Module Products.

Record t : Type := Build {
  filtration : list string;
  sensors : list string
}.

End Products.

(** [get_available_products] of [microservice/model_handler.py]. *)
Module ModelHandler.

Definition sensor_types : list string :=
  ["pressure_sensor_analog"; "pressure_sensor_digital";
   "temperature_sensor_bimetal"; "sensor_inductivo"; "transmisor_presion"].

Definition get_available_products (self : SupplierRecommender) : Products.t :=
  let products := Pandas.unique (List.map Offer.product_type (df self)) in
  let '(filtration_products, sensor_products) :=
    List.fold_left (fun '(filtration_products, sensor_products) product =>
        if str_in product sensor_types
        then (filtration_products, sensor_products ++ [product])
        else (filtration_products ++ [product], sensor_products))
      products ([], []) in
  {|
    Products.filtration := Builtins.sorted filtration_products;
    Products.sensors := Builtins.sorted sensor_products
  |}.

End ModelHandler.

(** The [/products] and [/health] routes of [microservice/app.py].  Nothing
    in [get_available_products] raises, so the [except] clause of the
    route is not reached. *)
Module Routes.

Record ProductsResponse : Type := {
  filtration_products : list string;
  sensor_products : list string;
  total_products : nat
}.

Inductive products_reply : Type :=
| ProductsOk (response : ProductsResponse)
| ProductsFails (e : App.exception).

Definition get_available_products (recommender : option SupplierRecommender)
    : products_reply :=
  match recommender with
  | None => ProductsFails (App.HTTPException 500 App.SistemaNoInicializado)
  | Some recommender =>
      let products := ModelHandler.get_available_products recommender in
      ProductsOk {|
        filtration_products := Products.filtration products;
        sensor_products := Products.sensors products;
        total_products :=
          length (Products.filtration products) + length (Products.sensors products)
      |}
  end.

End Routes.

(** ** The rest of [supplier_recommendation.py]

    What the program writes on the terminal is left out; what it reads is
    a list of lines, and [input()] on the empty list is [EOFError]. *)

(** [int(line)] and [float(line)]; [None] is the [ValueError].  The
    infinities and the not-a-number that [float] also reads have no rational
    value and are outside this model. *)
Record Console : Type := {
  int_of_line : string -> option Z;
  float_of_line : string -> option Q
}.

Inductive reads (A : Type) : Type :=
| Answered (a : A) (rest : list string)
| EOFError.

Arguments Answered {A} a rest.
Arguments EOFError {A}.

Module Program.

Definition sensor_types : list string :=
  ["pressure_sensor_analog"; "pressure_sensor_digital";
   "temperature_sensor_bimetal"; "sensor_inductivo"; "transmisor_presion"].

Definition get_available_products (self : SupplierRecommender) : Products.t :=
  let products := Pandas.unique (List.map Offer.product_type (df self)) in
  let '(filtration_products, sensor_products) :=
    List.fold_left (fun '(filtration_products, sensor_products) product =>
        if str_in product sensor_types
        then (filtration_products, sensor_products ++ [product])
        else (filtration_products ++ [product], sensor_products))
      products ([], []) in
  {|
    Products.filtration := Builtins.sorted filtration_products;
    Products.sensors := Builtins.sorted sensor_products
  |}.

(** The [product_map] that [show_product_menu] returns. *)
Definition show_product_menu (self : SupplierRecommender) : gmap Z string :=
  let products := get_available_products self in
  let '(option_num, product_map) :=
    List.fold_left (fun '(option_num, product_map) product =>
        ((option_num + 1)%Z, <[option_num := product]> product_map))
      (Products.filtration products) (1%Z, ∅) in
  let '(option_num, product_map) :=
    List.fold_left (fun '(option_num, product_map) product =>
        ((option_num + 1)%Z, <[option_num := product]> product_map))
      (Products.sensors products) (option_num, product_map) in
  product_map.

Definition urgency_options : gmap Z string :=
  list_to_map [(1%Z, "Low"); (2%Z, "Medium"); (3%Z, "High"); (4%Z, "Critical")].

(** The loops of steps 1 and 2: ask until the answer is a key of [options]. *)
Fixpoint choose (con : Console) (options : gmap Z string) (lines : list string)
    : reads string :=
  match lines with
  | [] => EOFError
  | line :: rest =>
      match int_of_line con line with
      | Some choice =>
          match options !! choice with
          | Some selected => Answered selected rest
          | None => choose con options rest
          end
      | None => choose con options rest
      end
  end.

(** Step 3: ask until the answer is a positive integer. *)
Fixpoint ask_quantity (con : Console) (lines : list string) : reads Z :=
  match lines with
  | [] => EOFError
  | line :: rest =>
      match int_of_line con line with
      | Some quantity =>
          if (quantity >? 0)%Z then Answered quantity rest
          else ask_quantity con rest
      | None => ask_quantity con rest
      end
  end.

(** Step 4: ask until the answer is a positive number. *)
Fixpoint ask_budget (con : Console) (lines : list string) : reads Q :=
  match lines with
  | [] => EOFError
  | line :: rest =>
      match float_of_line con line with
      | Some budget =>
          if negb (Qle_bool budget 0) then Answered budget rest
          else ask_budget con rest
      | None => ask_budget con rest
      end
  end.

Definition get_user_input (con : Console) (self : SupplierRecommender)
    (lines : list string) : reads (string * string * Z * Q) :=
  let product_map := show_product_menu self in
  match choose con product_map lines with
  | EOFError => EOFError
  | Answered selected_product lines =>
      match choose con urgency_options lines with
      | EOFError => EOFError
      | Answered selected_urgency lines =>
          match ask_quantity con lines with
          | EOFError => EOFError
          | Answered quantity lines =>
              match ask_budget con lines with
              | EOFError => EOFError
              | Answered budget lines =>
                  Answered (selected_product, selected_urgency, quantity, budget) lines
              end
          end
      end
  end.


End Program.

(** A console that reads decimal digits only, for the examples. *)
Definition demo_console : Console := {|
  int_of_line := fun line =>
    if String.eqb line "1" then Some 1%Z
    else if String.eqb line "2" then Some 2%Z
    else if String.eqb line "0" then Some 0%Z
    else if String.eqb line "7" then Some 7%Z
    else None;
  float_of_line := fun line =>
    if String.eqb line "600" then Some 600
    else if String.eqb line "0" then Some 0
    else None
|}.


Definition demo_empty : SupplierRecommender := {|
  model := model demo;
  label_encoders := label_encoders demo;
  target_encoder := target_encoder demo;
  feature_names := feature_names demo;
  df := []
|}.

(** * The same programs on double-precision numbers

    What precedes idealises a float as a rational; that serves the
    properties that do not hang on how a double rounds.  [Double] is the
    recommender of [model_handler.py], the handler of [app.py] and the
    recommender of [supplier_recommendation.py] again, on IEEE 754 binary64
    values as Python and numpy compute them: every sum, product and
    quotient is rounded to the nearest double, the microservice rounds
    Python floats with Python's [round], the program rounds numpy floats
    with numpy's, and an integer too large for a double raises
    [OverflowError]. *)

(** ** Binary64 arithmetic *)

Module Binary64.

Definition float : Type := spec_float.
Definition prec : Z := 53.
Definition emax : Z := 1024.

Definition add : float -> float -> float := SFadd prec emax.
Definition mul : float -> float -> float := SFmul prec emax.
Definition div : float -> float -> float := SFdiv prec emax.
Definition leb : float -> float -> bool := SFleb.

(** The double nearest to the quotient of two integers. *)
Definition of_ratio (num : Z) (den : positive) : float :=
  match num with
  | Z0 => S754_zero false
  | Zpos p => div (S754_finite false p 0) (S754_finite false den 0)
  | Zneg p => div (S754_finite true p 0) (S754_finite false den 0)
  end.

(** A decimal literal of the source: the double nearest to it. *)
Definition lit (q : Q) : float := of_ratio (Qnum q) (Qden q).

(** The exact value of a finite double. *)
Definition to_Q (x : float) : Q :=
  match x with
  | S754_finite s m e =>
      let v := inject_Z (Zpos m) * Qpower 2 e in
      if s then Qopp v else v
  | _ => 0
  end.

(** The double nearest to an integer, an infinity when there is none. *)
Definition of_int (n : Z) : float := binary_normalize prec emax n 0 false.

Definition pow10 (ndigits : nat) : positive := Pos.pow 10 (Pos.of_nat ndigits).

(** [round(x, ndigits)] of a Python float, for [ndigits] from 1 to 22: the
    exact value of [x] is rounded to [ndigits] decimals, ties to even, and
    the double nearest to that decimal is returned; zeros, infinities and
    the not-a-number are returned as they are. *)
Definition py_round (x : float) (ndigits : nat) : float :=
  match x with
  | S754_finite s _ _ =>
      match Rounding.round_half_even (to_Q x * inject_Z (Zpos (pow10 ndigits))) with
      | Z0 => S754_zero s
      | k => of_ratio k (pow10 ndigits)
      end
  | _ => x
  end.

(** [np.rint(x)] *)
Definition rint (x : float) : float :=
  match x with
  | S754_finite s _ e =>
      if (0 <=? e)%Z then x
      else
        match Rounding.round_half_even (to_Q x) with
        | Z0 => S754_zero s
        | k => of_int k
        end
  | _ => x
  end.

(** [round(x, ndigits)] of a numpy float64, for [ndigits] from 1 to 22:
    [np.rint(x * 10**ndigits) / 10**ndigits], each step a double. *)
Definition np_round (x : float) (ndigits : nat) : float :=
  let f := of_int (Zpos (pow10 ndigits)) in
  div (rint (mul x f)) f.

End Binary64.

Declare Scope double_scope.
Delimit Scope double_scope with double.
Infix "+" := Binary64.add : double_scope.
Infix "*" := Binary64.mul : double_scope.
Infix "/" := Binary64.div : double_scope.
Infix "<=?" := Binary64.leb : double_scope.
Arguments Binary64.lit q%_Q.

Module Double.

Import Binary64.

(** ** Exceptions *)

Inductive exn : Type :=
| KeyError (message : key_error)
| IndexError
| ModelError
| OverflowError.

Inductive outcome (A : Type) : Type :=
| Returns (a : A)
| Raises (e : exn).

Arguments Returns {A} a.
Arguments Raises {A} e.

Definition bind {A B : Type} (c : outcome A) (k : A -> outcome B) : outcome B :=
  match c with
  | Returns a => k a
  | Raises e => Raises e
  end.

Notation "'let!' x ':=' c 'in' k" := (bind c (fun x => k))
  (at level 10, x name, c at level 100, k at level 200).

Fixpoint for_each {A B : Type} (body : A -> outcome B) (l : list A) : outcome (list B) :=
  match l with
  | [] => Returns []
  | a :: l' =>
      let! b := body a in
      let! bs := for_each body l' in
      Returns (b :: bs)
  end.

(** [float(n)] for a Python integer, as in [price * quantity]. *)
Definition float_of_int (n : Z) : outcome float :=
  match of_int n with
  | S754_infinity _ => Raises OverflowError
  | x => Returns x
  end.

(** ** Rows, columns and the loaded system *)

Module Offer.

Record t : Type := Build {
  product_type : string;
  supplier_name : string;
  country : string;
  quality_rating : float;
  price_usd : float;
  delivery_days : Z;
  payment_terms_days : Z;
  shipping_included : bool;
  express_available : bool;
  incoterms : string
}.

End Offer.

Inductive cell : Type :=
| CInt (n : Z)
| CFloat (x : float)
| CStr (s : string).

Record Ambient : Type := {
  now_month : Z;
  str_of_float : float -> string
}.

(** [df[df[col] == value]] *)
Definition where_eq (col : Offer.t -> string) (value : string) (df : list Offer.t)
    : list Offer.t :=
  List.filter (fun row => String.eqb (col row) value) df.

(** [df.empty] *)
Definition empty (df : list Offer.t) : bool :=
  match df with
  | [] => true
  | _ :: _ => false
  end.

(** [df.iloc[0]] *)
Definition iloc0 (df : list Offer.t) : outcome Offer.t :=
  match df with
  | [] => Raises IndexError
  | row :: _ => Returns row
  end.

(** One value of [column.astype(str)]. *)
Definition astype_str (amb : Ambient) (c : cell) : string :=
  match c with
  | CInt n => Pandas.str_of_int n
  | CFloat x => str_of_float amb x
  | CStr s => s
  end.

(** The columns [names], when each is a column. *)
Fixpoint columns (input_data : gmap string cell) (names : list string) : option (list cell) :=
  match names with
  | [] => Some []
  | name :: rest =>
      match input_data !! name, columns input_data rest with
      | Some c, Some cs => Some (c :: cs)
      | _, _ => None
      end
  end.

(** [input_data[names]] *)
Definition select_columns (input_data : gmap string cell) (names : list string)
    : outcome (list cell) :=
  match columns input_data names with
  | Some cells => Returns cells
  | None =>
      let missing :=
        List.filter (fun name =>
          match input_data !! name with Some _ => false | None => true end) names in
      if Nat.eqb (length missing) (length names)
      then Raises (KeyError (NoneOf names))
      else Raises (KeyError (NotInIndex (Pandas.unique missing)))
  end.

(** [array[i]] *)
Definition getitem (array : list float) (i : nat) : outcome float :=
  match nth_error array i with
  | Some x => Returns x
  | None => Raises IndexError
  end.

(** [list.sort(key=key, reverse=True)] on keys none of which is the
    not-a-number. *)
Fixpoint insert_desc {A : Type} (key : A -> float) (x : A) (sorted : list A) : list A :=
  match sorted with
  | [] => [x]
  | y :: rest =>
      if (key y <=? key x)%double then x :: y :: rest
      else y :: insert_desc key x rest
  end.

Fixpoint sort_reverse {A : Type} (key : A -> float) (l : list A) : list A :=
  match l with
  | [] => []
  | x :: rest => insert_desc key x (sort_reverse key rest)
  end.

Record SupplierRecommender : Type := {
  (** [model.predict_proba(input_data)[0]] *)
  model : list cell -> outcome (list float);
  label_encoders : gmap string (list string);
  (** [target_encoder.classes_] *)
  target_encoder : list string;
  feature_names : list string;
  df : list Offer.t
}.

Module Rec.

Record t : Type := Build {
  supplier_name : string;
  country : string;
  quality_rating : float;
  price_usd : float;
  total_cost : float;
  delivery_days : Z;
  payment_terms_days : Z;
  probability_score : float;
  within_budget : bool;
  shipping_included : bool;
  express_available : bool;
  final_score : float;
  recommendation_level : string
}.

End Rec.

Module Envelope.

Record t : Type := Build {
  product_type : string;
  urgency : string;
  quantity : Z;
  budget : float;
  recommendations : list Rec.t;
  total_options : nat
}.

End Envelope.

Inductive response : Type :=
| ErrorDict (e : error)
| Result (env : Envelope.t).

(** ** [microservice/model_handler.py] *)

Module Api.

(** # Crear input para el modelo *)
Definition input_frame (amb : Ambient) (supplier_data : Offer.t)
    (product_type urgency : string) (quantity : Z) (budget : float) : gmap string cell :=
  list_to_map [
    ("price_usd", CFloat (Offer.price_usd supplier_data));
    ("delivery_days", CInt (Offer.delivery_days supplier_data));
    ("payment_terms_days", CInt (Offer.payment_terms_days supplier_data));
    ("shipping_included", CInt (Z.b2z (Offer.shipping_included supplier_data)));
    ("express_available", CInt (Z.b2z (Offer.express_available supplier_data)));
    ("order_urgency", CStr urgency);
    ("quantity_needed", CInt quantity);
    ("budget_available", CFloat budget);
    ("product_type", CStr product_type);
    ("incoterms", CStr (Offer.incoterms supplier_data));
    ("month", CInt (now_month amb));
    ("quarter", CStr ("Q" ++ Pandas.str_of_int ((now_month amb - 1) / 3 + 1)))
  ].

(** # Aplicar encoding *)
Definition apply_encoding (self : SupplierRecommender) (amb : Ambient)
    (input_data : gmap string cell) : gmap string cell :=
  map_fold (fun feature classes_ input_data =>
      match input_data !! feature with
      | Some column =>
          match LabelEncoder.transform classes_ (astype_str amb column) with
          | Some code => <[feature := CInt code]> input_data
          | None => <[feature := CInt 0]> input_data
          end
      | None => input_data
      end) input_data (label_encoders self).

(** # Reordenar columnas, # Predicción *)
Definition predict (self : SupplierRecommender) (input_data : gmap string cell)
    (supplier_name : string) : outcome float :=
  let! input_data := select_columns input_data (feature_names self) in
  let! probabilities := model self input_data in
  match Numpy.where_first (target_encoder self) supplier_name with
  | Some supplier_idx => getitem probabilities supplier_idx
  | None => Returns (lit 0.0)
  end.

(** The body of the loop over the suppliers. *)
Definition recommend_one (self : SupplierRecommender) (amb : Ambient)
    (product_type urgency : string) (quantity : Z) (budget : float)
    (available_products : list Offer.t) (supplier_name : string) : outcome Rec.t :=
  let! supplier_data :=
    iloc0 (where_eq Offer.supplier_name supplier_name available_products) in
  let input_data := input_frame amb supplier_data product_type urgency quantity budget in
  let input_data := apply_encoding self amb input_data in
  let! probability := predict self input_data supplier_name in
  let! quantity_f := float_of_int quantity in
  let total_cost := (Offer.price_usd supplier_data * quantity_f)%double in
  let total_cost :=
    if negb (Offer.shipping_included supplier_data)
    then (total_cost + of_int 300)%double else total_cost in
  let r_quality_rating := Offer.quality_rating supplier_data in
  let r_delivery_days := Offer.delivery_days supplier_data in
  let r_payment_terms_days := Offer.payment_terms_days supplier_data in
  let r_probability_score := py_round probability 3 in
  let r_within_budget := (total_cost <=? budget)%double in
  let quality_score := (r_quality_rating / lit 5.0)%double in
  let price_score := if r_within_budget then lit 1.0 else lit 0.5 in
  let delivery_score := if (r_delivery_days <=? 15)%Z then lit 1.0 else lit 0.7 in
  let payment_score := if (r_payment_terms_days >? 0)%Z then lit 1.0 else lit 0.8 in
  let final_score :=
    (r_probability_score * lit 0.4 +
     quality_score * lit 0.25 +
     price_score * lit 0.2 +
     delivery_score * lit 0.1 +
     payment_score * lit 0.05)%double in
  Returns {|
    Rec.supplier_name := supplier_name;
    Rec.country := Offer.country supplier_data;
    Rec.quality_rating := r_quality_rating;
    Rec.price_usd := Offer.price_usd supplier_data;
    Rec.total_cost := py_round total_cost 2;
    Rec.delivery_days := r_delivery_days;
    Rec.payment_terms_days := r_payment_terms_days;
    Rec.probability_score := r_probability_score;
    Rec.within_budget := r_within_budget;
    Rec.shipping_included := Offer.shipping_included supplier_data;
    Rec.express_available := Offer.express_available supplier_data;
    Rec.final_score := py_round final_score 3;
    Rec.recommendation_level :=
      if (lit 0.75 <=? final_score)%double then "Altamente Recomendado"
      else if (lit 0.6 <=? final_score)%double then "Recomendado"
      else if (lit 0.45 <=? final_score)%double then "Aceptable"
      else "No Recomendado"
  |}.

Definition recommend_suppliers (self : SupplierRecommender) (amb : Ambient)
    (product_type urgency : string) (quantity : Z) (budget : float) : outcome response :=
  if negb (str_in urgency valid_urgencies) then
    Returns (ErrorDict (UrgenciaDebeSerUnaDe valid_urgencies))
  else
    let available_products := where_eq Offer.product_type product_type (df self) in
    if empty available_products then
      let available_types := Pandas.unique (List.map Offer.product_type (df self)) in
      Returns (ErrorDict (ProductoNoEncontrado available_types))
    else
      let! recommendations :=
        for_each
          (recommend_one self amb product_type urgency quantity budget available_products)
          (Pandas.unique (List.map Offer.supplier_name available_products)) in
      let recommendations := sort_reverse Rec.final_score recommendations in
      Returns (Result {|
        Envelope.product_type := product_type;
        Envelope.urgency := urgency;
        Envelope.quantity := quantity;
        Envelope.budget := budget;
        Envelope.recommendations := recommendations;
        Envelope.total_options := length recommendations
      |}).

End Api.

(** ** [microservice/app.py]: the [/recommend] handler *)

Module App.

Record RecommendationRequest : Type := {
  product_type : string;
  urgency : string;
  quantity : Z;
  budget : float
}.

Inductive exception : Type :=
| PyException (e : exn)
| HTTPException (status_code : Z) (d : detail)
with detail : Type :=
| SistemaNoInicializado
| UrgenciaDebeSerUnaDe (valid_urgencies : list string)
| CantidadDebeSerMayorA0
| PresupuestoDebeSerMayorA0
| ResultError (e : error)
| ErrorEnRecomendacion (cause : exception).

Inductive reply : Type :=
| Ok (result : Envelope.t)
| Fails (e : exception).

(** The body of the [try]. *)
Definition try_recommend (recommender : SupplierRecommender) (amb : Ambient)
    (request : RecommendationRequest) : reply :=
  match Api.recommend_suppliers recommender amb (product_type request) (urgency request)
          (quantity request) (budget request) with
  | Raises e => Fails (PyException e)
  | Returns (ErrorDict e) => Fails (HTTPException 400 (ResultError e))
  | Returns (Result result) => Ok result
  end.

Definition recommend_suppliers (recommender : option SupplierRecommender) (amb : Ambient)
    (request : RecommendationRequest) : reply :=
  match recommender with
  | None => Fails (HTTPException 500 SistemaNoInicializado)
  | Some recommender =>
      let valid_urgencies := ["Low"; "Medium"; "High"; "Critical"] in
      if negb (str_in (urgency request) valid_urgencies) then
        Fails (HTTPException 400 (UrgenciaDebeSerUnaDe valid_urgencies))
      else if (quantity request <=? 0)%Z then
        Fails (HTTPException 400 CantidadDebeSerMayorA0)
      else if (budget request <=? of_int 0)%double then
        Fails (HTTPException 400 PresupuestoDebeSerMayorA0)
      else
        match try_recommend recommender amb request with
        | Ok result => Ok result
        | Fails e => Fails (HTTPException 500 (ErrorEnRecomendacion e))
        end
  end.

End App.

(** ** [supplier_recommendation.py] *)

Module Cli.

(** A number of the program: a numpy [float64] or a Python [float]. *)
Inductive number : Type :=
| NumpyFloat (x : float)
| PythonFloat (x : float).

(** [round(v, ndigits)], by the kind of [v]. *)
Definition round (v : number) (ndigits : nat) : float :=
  match v with
  | NumpyFloat x => np_round x ndigits
  | PythonFloat x => py_round x ndigits
  end.

(** # FEATURES LIMPIAS (sin country/quality_rating) *)
Definition input_frame (amb : Ambient) (supplier_data : Offer.t)
    (product_type urgency : string) (quantity : Z) (budget : float) : gmap string cell :=
  list_to_map [
    ("price_usd", CFloat (Offer.price_usd supplier_data));
    ("delivery_days", CInt (Offer.delivery_days supplier_data));
    ("payment_terms_days", CInt (Offer.payment_terms_days supplier_data));
    ("shipping_included", CInt (Z.b2z (Offer.shipping_included supplier_data)));
    ("express_available", CInt (Z.b2z (Offer.express_available supplier_data)));
    ("order_urgency", CStr urgency);
    ("quantity_needed", CInt quantity);
    ("budget_available", CFloat budget);
    ("product_type", CStr product_type);
    ("incoterms", CStr (Offer.incoterms supplier_data));
    ("month", CInt (now_month amb));
    ("quarter", CStr ("Q" ++ Pandas.str_of_int ((now_month amb - 1) / 3 + 1)))
  ].

(** # Aplicar encoding *)
Definition apply_encoding (self : SupplierRecommender) (amb : Ambient)
    (input_data : gmap string cell) : gmap string cell :=
  map_fold (fun feature classes_ input_data =>
      match input_data !! feature with
      | Some column =>
          match LabelEncoder.transform classes_ (astype_str amb column) with
          | Some code => <[feature := CInt code]> input_data
          | None => <[feature := CInt 0]> input_data
          end
      | None => input_data
      end) input_data (label_encoders self).

(** # Reordenar columnas según el modelo, # Obtener probabilidades de
    predicción.  The probability is an element of the numpy array or the
    Python float [0.0]. *)
Definition predict (self : SupplierRecommender) (input_data : gmap string cell)
    (supplier_name : string) : outcome number :=
  let! input_data := select_columns input_data (feature_names self) in
  let! probabilities := model self input_data in
  match Numpy.where_first (target_encoder self) supplier_name with
  | Some supplier_idx =>
      let! probability := getitem probabilities supplier_idx in
      Returns (NumpyFloat probability)
  | None => Returns (PythonFloat (lit 0.0))
  end.

(** The body of the loop over the suppliers. *)
Definition recommend_one (self : SupplierRecommender) (amb : Ambient)
    (product_type urgency : string) (quantity : Z) (budget : float)
    (available_products : list Offer.t) (supplier_name : string) : outcome Rec.t :=
  let! supplier_data :=
    iloc0 (where_eq Offer.supplier_name supplier_name available_products) in
  let input_data := input_frame amb supplier_data product_type urgency quantity budget in
  let input_data := apply_encoding self amb input_data in
  let! probability := predict self input_data supplier_name in
  let! quantity_f := float_of_int quantity in
  let total_cost := (Offer.price_usd supplier_data * quantity_f)%double in
  let total_cost :=
    if negb (Offer.shipping_included supplier_data)
    then (total_cost + of_int 300)%double else total_cost in
  let r_quality_rating := Offer.quality_rating supplier_data in
  let r_delivery_days := Offer.delivery_days supplier_data in
  let r_payment_terms_days := Offer.payment_terms_days supplier_data in
  let r_probability_score := round probability 3 in
  let r_within_budget := (total_cost <=? budget)%double in
  let quality_score := (r_quality_rating / lit 5.0)%double in
  let price_score := if r_within_budget then lit 1.0 else lit 0.5 in
  let delivery_score := if (r_delivery_days <=? 15)%Z then lit 1.0 else lit 0.7 in
  let payment_score := if (r_payment_terms_days >? 0)%Z then lit 1.0 else lit 0.8 in
  let final_score :=
    (r_probability_score * lit 0.4 +
     quality_score * lit 0.25 +
     price_score * lit 0.2 +
     delivery_score * lit 0.1 +
     payment_score * lit 0.05)%double in
  Returns {|
    Rec.supplier_name := supplier_name;
    Rec.country := Offer.country supplier_data;
    Rec.quality_rating := r_quality_rating;
    Rec.price_usd := Offer.price_usd supplier_data;
    Rec.total_cost := np_round total_cost 2;
    Rec.delivery_days := r_delivery_days;
    Rec.payment_terms_days := r_payment_terms_days;
    Rec.probability_score := r_probability_score;
    Rec.within_budget := r_within_budget;
    Rec.shipping_included := Offer.shipping_included supplier_data;
    Rec.express_available := Offer.express_available supplier_data;
    Rec.final_score := np_round final_score 3;
    Rec.recommendation_level :=
      if (lit 0.75 <=? final_score)%double then "⭐⭐⭐ Altamente Recomendado"
      else if (lit 0.6 <=? final_score)%double then "⭐⭐ Recomendado"
      else if (lit 0.45 <=? final_score)%double then "⭐ Aceptable"
      else "❌ No Recomendado"
  |}.

Definition recommend_suppliers (self : SupplierRecommender) (amb : Ambient)
    (product_type urgency : string) (quantity : Z) (budget : float) : outcome response :=
  if negb (str_in urgency valid_urgencies) then
    Returns (ErrorDict (UrgenciaDebeSerUnaDe valid_urgencies))
  else
    let available_products := where_eq Offer.product_type product_type (df self) in
    if empty available_products then
      let available_types := Pandas.unique (List.map Offer.product_type (df self)) in
      Returns (ErrorDict (ProductoNoEncontrado available_types))
    else
      let! recommendations :=
        for_each
          (recommend_one self amb product_type urgency quantity budget available_products)
          (Pandas.unique (List.map Offer.supplier_name available_products)) in
      let recommendations := sort_reverse Rec.final_score recommendations in
      Returns (Result {|
        Envelope.product_type := product_type;
        Envelope.urgency := urgency;
        Envelope.quantity := quantity;
        Envelope.budget := budget;
        Envelope.recommendations := recommendations;
        Envelope.total_options := length recommendations
      |}).

End Cli.

(** ** Vocabulary of the statements on doubles *)

(** [row] is the first row of the dataset, in its order, that offers
    [product_type] from [supplier_name]. *)
Definition first_row (df : list Offer.t) (product_type supplier_name : string)
    (row : Offer.t) : Prop :=
  exists before after,
    df = before ++ row :: after /\
    Offer.product_type row = product_type /\
    Offer.supplier_name row = supplier_name /\
    forall row', In row' before ->
      ~ (Offer.product_type row' = product_type /\ Offer.supplier_name row' = supplier_name).

(** The tier of a score by the thresholds 0.75, 0.6, 0.45, high to low. *)
Definition tier_of_score (score : float) : tier :=
  if (lit 0.75 <=? score)%double then Highest
  else if (lit 0.6 <=? score)%double then Second
  else if (lit 0.45 <=? score)%double then Third
  else Lowest.

(** The weighted sum of an entry, from its own fields, as the code adds
    it up, before it is rounded for the report. *)
Definition weighted_sum (r : Rec.t) : float :=
  (Rec.probability_score r * lit 0.4 +
   Rec.quality_rating r / lit 5.0 * lit 0.25 +
   (if Rec.within_budget r then lit 1.0 else lit 0.5) * lit 0.2 +
   (if (Rec.delivery_days r <=? 15)%Z then lit 1.0 else lit 0.7) * lit 0.1 +
   (if (0 <? Rec.payment_terms_days r)%Z then lit 1.0 else lit 0.8) * lit 0.05)%double.

(** The cost of an order of [quantity_f] units of the offer [row], before
    it is rounded for the report. *)
Definition order_cost (row : Offer.t) (quantity_f : float) : float :=
  if Offer.shipping_included row
  then (Offer.price_usd row * quantity_f)%double
  else (Offer.price_usd row * quantity_f + of_int 300)%double.

(** [r] is the entry of the microservice for the offer [row], an order of
    [quantity_f] units, the budget [budget] and the probability
    [probability] that [predict] gave for the supplier of [row]: each of
    its thirteen fields is fixed. *)
Definition api_entry (row : Offer.t) (quantity_f budget probability : float) (r : Rec.t)
    : Prop :=
  Rec.supplier_name r = Offer.supplier_name row /\
  Rec.country r = Offer.country row /\
  Rec.quality_rating r = Offer.quality_rating row /\
  Rec.price_usd r = Offer.price_usd row /\
  Rec.delivery_days r = Offer.delivery_days row /\
  Rec.payment_terms_days r = Offer.payment_terms_days row /\
  Rec.shipping_included r = Offer.shipping_included row /\
  Rec.express_available r = Offer.express_available row /\
  Rec.probability_score r = py_round probability 3 /\
  Rec.total_cost r = py_round (order_cost row quantity_f) 2 /\
  Rec.within_budget r = (order_cost row quantity_f <=? budget)%double /\
  Rec.final_score r = py_round (weighted_sum r) 3 /\
  Rec.recommendation_level r = level_text (tier_of_score (weighted_sum r)).

(** The double that a number of the program holds. *)
Definition value (v : Cli.number) : float :=
  match v with
  | Cli.NumpyFloat x => x
  | Cli.PythonFloat x => x
  end.



(** The loaded artefacts fit together: the feature names are columns of
    [input_data], the classifier answers every vector, and it gives a
    probability for every class of the target encoder. *)
Definition schema_ok (self : SupplierRecommender) : Prop :=
  forall name, In name (feature_names self) -> In name input_columns.

Definition model_answers (self : SupplierRecommender) : Prop :=
  forall vector, exists probabilities, model self vector = Returns probabilities.

Definition classes_covered (self : SupplierRecommender) : Prop :=
  forall vector probabilities,
    model self vector = Returns probabilities ->
    (length (target_encoder self) <= length probabilities)%nat.

(** ** A small system on doubles, for the examples *)

Definition demo_df : list Offer.t := [
  Offer.Build "filter_cloth_roll" "Alfa" "Italy" (lit 4.5) (lit 100) 10 30 true true "FOB";
  Offer.Build "filter_cloth_roll" "Beta" "Spain" (lit 5.0) (lit 120) 12 30 true false "CIF";
  Offer.Build "valve_butterfly" "Gamma" "Chile" (lit 4.0) (lit 10.004) 20 0 true false "EXW";
  Offer.Build "filter_cloth_roll" "Alfa" "Peru" (lit 3.0) (lit 90) 40 0 false false "FOB";
  Offer.Build "valve_butterfly" "Delta" "Peru" (lit 3.5) (lit 400) 7 15 false true "FOB";
  Offer.Build "pump_seal" "Omega" "Brazil" (lit 4.0) (lit 2.675) 10 30 true true "CIF"
].

Definition demo : SupplierRecommender := {|
  model := fun _ => Returns [lit 0.0013; lit 0.374; lit 0.5; lit 0.0085];
  label_encoders := list_to_map [
    ("order_urgency", ["Critical"; "High"; "Low"; "Medium"]);
    ("product_type", ["filter_cloth_roll"]);
    ("incoterms", ["CIF"; "FOB"]);
    ("quarter", ["Q1"; "Q2"; "Q3"; "Q4"])
  ];
  target_encoder := ["Alfa"; "Beta"; "Gamma"; "Omega"];
  feature_names := input_columns;
  df := demo_df
|}.

Definition demo_ambient : Ambient := {|
  now_month := 11;
  str_of_float := fun _ => "0.0"
|}.

(** The same system with feature names that are not all columns. *)
Definition demo_country : SupplierRecommender := {|
  model := model demo;
  label_encoders := label_encoders demo;
  target_encoder := target_encoder demo;
  feature_names := ["price_usd"; "country"; "quality_rating"; "country"];
  df := df demo
|}.

(** What the microservice reports when one filter cloth roll is asked for
    with a budget of 1000. *)
Definition demo_beta : Rec.t :=
  Rec.Build "Beta" "Spain" (lit 5.0) (lit 120) (lit 120) 12 30 (lit 0.374) true true false
    (lit 0.75) "Recomendado".

Definition demo_alfa : Rec.t :=
  Rec.Build "Alfa" "Italy" (lit 4.5) (lit 100) (lit 100) 10 30 (lit 0.001) true true true
    (lit 0.575) "Aceptable".

Definition demo_rolls : Envelope.t :=
  Envelope.Build "filter_cloth_roll" "Low" 1 (lit 1000) [demo_beta; demo_alfa] 2.

(** What it reports when one butterfly valve is asked for with a budget
    of 10. *)
Definition demo_gamma : Rec.t :=
  Rec.Build "Gamma" "Chile" (lit 4.0) (lit 10.004) (lit 10) 20 0 (lit 0.5) false true false
    (lit 0.61) "Recomendado".

Definition demo_delta : Rec.t :=
  Rec.Build "Delta" "Peru" (lit 3.5) (lit 400) (lit 700) 7 15 (lit 0.0) false false true
    (lit 0.425) "No Recomendado".

Definition demo_valves : Envelope.t :=
  Envelope.Build "valve_butterfly" "Low" 1 (lit 10) [demo_gamma; demo_delta] 2.



End Double.

(** * Properties *)

(** ** Rounding *)

Section RoundingFacts.
Import Rounding.









End RoundingFacts.

(** ** Loops, columns and sorting *)

Section Loops.
Context {A B : Type} (body : A -> outcome B).


End Loops.

Lemma unique_In (v : string) (l : list string) : In v (Pandas.unique l) <-> In v l.
Proof.
  induction l as [|x l IH]; simpl; [tauto|].
  rewrite List.filter_In, IH, negb_true_iff, String.eqb_neq.
  destruct (String.eqb_spec x v) as [->|Hne].
  - tauto.
  - split; [tauto|]. intros [->|H]; [tauto|]. right. split; [assumption|congruence].
Qed.

Lemma unique_NoDup (l : list string) : List.NoDup (Pandas.unique l).
Proof.
  induction l as [|x l IH]; simpl; constructor.
  - rewrite List.filter_In, String.eqb_refl. simpl. intros [_ H]; discriminate.
  - apply List.NoDup_filter, IH.
Qed.

Section Sorting.
Context {A : Type} (key : A -> Q).







End Sorting.

Lemma filter_first {A : Type} (f : A -> bool) (l : list A) (x : A) (rest : list A) :
  List.filter f l = x :: rest ->
  exists before after, l = before ++ x :: after /\ f x = true /\
    forall y, In y before -> f y = false.
Proof.
  induction l as [|a l IH]; simpl; [discriminate|].
  destruct (f a) eqn:Ea; intros H.
  - injection H as -> _. exists [], l. repeat split; [assumption|intros y []].
  - destruct (IH H) as (before & after & -> & Hx & Hb).
    exists (a :: before), after. repeat split; [assumption|].
    intros y [<-|Hy]; auto.
Qed.

Lemma filter_filter {A : Type} (f g : A -> bool) (l : list A) :
  List.filter g (List.filter f l) = List.filter (fun a => f a && g a) l.
Proof.
  induction l as [|a l IH]; [reflexivity|]. simpl.
  destruct (f a); simpl; [destruct (g a)|]; rewrite ?IH; reflexivity.
Qed.

(** ** The loop body of the microservice *)


Lemma where_eq_In (col : Offer.t -> string) (value : string) (df : list Offer.t) (row : Offer.t) :
  In row (Pandas.where_eq col value df) <-> In row df /\ col row = value.
Proof.
  unfold Pandas.where_eq. rewrite List.filter_In, String.eqb_eq. reflexivity.
Qed.



(** ** The result of the microservice *)

Lemma str_in_In (x : string) (l : list string) : str_in x l = true <-> In x l.
Proof.
  unfold str_in. rewrite List.existsb_exists. split.
  - intros (y & Hy & E). apply String.eqb_eq in E. subst. exact Hy.
  - intros H. exists x. split; [exact H | apply String.eqb_refl].
Qed.

Lemma empty_nil (l : list Offer.t) : Pandas.empty l = true <-> l = [].
Proof. destruct l; simpl; split; congruence. Qed.

Section Result.
Context (self : SupplierRecommender) (amb : Ambient).
Context (product_type urgency : string) (quantity : Z) (budget : Q).

Local Abbreviation available_products :=
  (Pandas.where_eq Offer.product_type product_type (df self)).
Local Abbreviation suppliers :=
  (Pandas.unique (List.map Offer.supplier_name available_products)).




End Result.

(** ** The texts of the tiers *)

Lemma level_text_inj (t t' : tier) : level_text t = level_text t' -> t = t'.
Proof. destruct t, t'; simpl; intros H; first [reflexivity | discriminate H]. Qed.

(** ** Order of the result *)




(** ** Range of the final score *)





(** ** Encoding, prediction and the success of the loop *)

Lemma where_first_None (classes_ : list string) (name : string) :
  Numpy.where_first classes_ name = None <-> ~ In name classes_.
Proof.
  induction classes_ as [|c rest IH]; simpl; [tauto|].
  destruct (String.eqb_spec c name) as [->|Hne].
  - split; [discriminate | tauto].
  - destruct (Numpy.where_first rest name); simpl.
    + split; [discriminate|]. intros H.
      assert (Hr : ~ In name rest) by tauto. apply IH in Hr. discriminate Hr.
    + split; [|reflexivity]. intros _ [E|H]; [congruence | tauto].
Qed.

Lemma where_first_Some (classes_ : list string) (name : string) (i : nat) :
  Numpy.where_first classes_ name = Some i -> (i < length classes_)%nat.
Proof.
  revert i. induction classes_ as [|c rest IH]; simpl; intros i; [discriminate|].
  destruct (String.eqb c name); [intros E; injection E as <-; lia|].
  destruct (Numpy.where_first rest name) as [j|]; simpl; [|discriminate].
  intros E. injection E as <-. specialize (IH j eq_refl). lia.
Qed.

Lemma transform_unseen (classes_ : list string) (value : string) :
  LabelEncoder.transform classes_ value = None <-> ~ In value classes_.
Proof.
  unfold LabelEncoder.transform. rewrite <- where_first_None.
  destruct (Numpy.where_first classes_ value); simpl; split; congruence.
Qed.

(** What the encoding loop leaves in each column. *)
Lemma apply_encoding_lookup (self : SupplierRecommender) (amb : Ambient)
    (input_data : gmap string cell) (feature : string) :
  Api.apply_encoding self amb input_data !! feature =
  match input_data !! feature with
  | None => None
  | Some column =>
      match label_encoders self !! feature with
      | None => Some column
      | Some classes_ =>
          match LabelEncoder.transform classes_ (Pandas.astype_str amb column) with
          | Some code => Some (CInt code)
          | None => Some (CInt 0)
          end
      end
  end.
Proof.
  unfold Api.apply_encoding. revert feature.
  apply (map_fold_weak_ind (fun (r : gmap string cell) (m : gmap string (list string)) =>
    forall feature, r !! feature =
      match input_data !! feature with
      | None => None
      | Some column =>
          match m !! feature with
          | None => Some column
          | Some classes_ =>
              match LabelEncoder.transform classes_ (Pandas.astype_str amb column) with
              | Some code => Some (CInt code)
              | None => Some (CInt 0)
              end
          end
      end)).
  - intros feature. rewrite lookup_empty. destruct (input_data !! feature); reflexivity.
  - intros i x m r Hi IH feature.
    pose proof (IH i) as Hri. rewrite Hi in Hri.
    destruct (decide (i = feature)) as [->|Hne].
    + rewrite lookup_insert_eq.
      destruct (input_data !! feature) as [column|]; rewrite Hri.
      * destruct (LabelEncoder.transform x (Pandas.astype_str amb column));
          apply lookup_insert_eq.
      * exact Hri.
    + rewrite (lookup_insert_ne m i feature x Hne).
      destruct (r !! i) as [column|]; [|apply IH].
      destruct (LabelEncoder.transform x (Pandas.astype_str amb column));
        rewrite lookup_insert_ne by exact Hne; apply IH.
Qed.


(** ** Errors of the recommender and of the handler *)

Lemma no_rows_empty (df : list Offer.t) (product_type : string) :
  Pandas.empty (Pandas.where_eq Offer.product_type product_type df) = true <->
  forall row, In row df -> Offer.product_type row <> product_type.
Proof.
  rewrite empty_nil. split.
  - intros E row Hrow Hp. assert (Hf : In row []); [|destruct Hf].
    rewrite <- E. apply where_eq_In. split; assumption.
  - intros H. destruct (Pandas.where_eq _ _ _) as [|row rest] eqn:E; [reflexivity|].
    exfalso. assert (Hin : In row (Pandas.where_eq Offer.product_type product_type df)).
    { rewrite E. left. reflexivity. }
    apply where_eq_In in Hin. destruct Hin as [Hin Hp]. exact (H row Hin Hp).
Qed.

(** What the handler does with the recommender's error dictionary: the
    status 400 it raises inside its [try] is caught by its own
    [except Exception] and leaves as status 500. *)
Lemma handler_wraps_error_dict (self : SupplierRecommender) (amb : Ambient)
    (request : App.RecommendationRequest) (e : error) :
  In (App.urgency request) valid_urgencies ->
  (0 < App.quantity request)%Z ->
  0 < App.budget request ->
  Api.recommend_suppliers self amb (App.product_type request) (App.urgency request)
    (App.quantity request) (App.budget request) = Returns (ErrorDict e) ->
  App.recommend_suppliers (Some self) amb request =
  App.Fails (App.HTTPException 500
    (App.ErrorEnRecomendacion (App.HTTPException 400 (App.ResultError e)))).
Proof.
  intros Hu Hq Hb He. unfold App.recommend_suppliers, App.try_recommend.
  change ["Low"; "Medium"; "High"; "Critical"] with valid_urgencies.
  rewrite (proj2 (str_in_In _ _) Hu). cbn [negb].
  rewrite (proj2 (Z.leb_gt _ _) Hq).
  assert (Hb' : Qle_bool (App.budget request) 0 = false).
  { destruct (Qle_bool (App.budget request) 0) eqn:E; [|reflexivity].
    apply Qle_bool_iff in E. lra. }
  rewrite Hb', He. reflexivity.
Qed.

(** ** One entry per supplier *)




(** * The product lists *)

Section SortedStrings.

Lemma insort_perm (x : string) (l : list string) :
  Permutation (Builtins.insort x l) (x :: l).
Proof.
  induction l as [|y l IH]; simpl; [reflexivity|].
  destruct (String.leb x y); [reflexivity|].
  rewrite IH. apply perm_swap.
Qed.

Lemma sorted_perm (l : list string) : Permutation (Builtins.sorted l) l.
Proof.
  induction l as [|x l IH]; simpl; [reflexivity|].
  rewrite insort_perm, IH. reflexivity.
Qed.

Lemma insort_sorted (x : string) (l : list string) :
  Sorted (fun a b => String.leb a b = true) l ->
  Sorted (fun a b => String.leb a b = true) (Builtins.insort x l).
Proof.
  induction l as [|y l IH]; intros Hs; simpl.
  - repeat constructor.
  - destruct (String.leb x y) eqn:E.
    + constructor; [exact Hs | constructor; exact E].
    + assert (Hyx : String.leb y x = true).
      { destruct (String.leb_total x y) as [H|H]; [congruence | exact H]. }
      inversion Hs as [|? ? Hl Hy]; subst.
      constructor; [apply IH, Hl|].
      destruct l as [|z l]; simpl.
      * constructor. exact Hyx.
      * destruct (String.leb x z); constructor; [exact Hyx|].
        inversion Hy; assumption.
Qed.

Lemma sorted_sorted (l : list string) :
  Sorted (fun a b => String.leb a b = true) (Builtins.sorted l).
Proof.
  induction l as [|x l IH]; simpl; [constructor|].
  apply insort_sorted, IH.
Qed.

End SortedStrings.

Lemma filter_split_perm {A : Type} (f : A -> bool) (l : list A) :
  Permutation (List.filter (fun x => negb (f x)) l ++ List.filter f l) l.
Proof.
  induction l as [|a l IH]; [reflexivity|]. cbn [List.filter].
  destruct (f a); cbn [negb].
  - symmetry. apply Permutation_cons_app. symmetry. exact IH.
  - cbn [app]. apply perm_skip, IH.
Qed.

(** The loop that fills the two lists. *)
Lemma split_products (products filtration_products sensor_products : list string) :
  List.fold_left (fun '(filtration_products, sensor_products) product =>
      if str_in product ModelHandler.sensor_types
      then (filtration_products, sensor_products ++ [product])
      else (filtration_products ++ [product], sensor_products))
    products (filtration_products, sensor_products) =
  (filtration_products ++
     List.filter (fun p => negb (str_in p ModelHandler.sensor_types)) products,
   sensor_products ++
     List.filter (fun p => str_in p ModelHandler.sensor_types) products).
Proof.
  revert filtration_products sensor_products.
  induction products as [|p products IH]; intros f s; cbn [List.fold_left List.filter].
  - rewrite !List.app_nil_r. reflexivity.
  - destruct (str_in p ModelHandler.sensor_types); cbn [negb]; rewrite IH, <- List.app_assoc;
      reflexivity.
Qed.

Lemma get_available_products_lists (self : SupplierRecommender) :
  ModelHandler.get_available_products self =
  {|
    Products.filtration := Builtins.sorted
      (List.filter (fun p => negb (str_in p ModelHandler.sensor_types))
         (Pandas.unique (List.map Offer.product_type (df self))));
    Products.sensors := Builtins.sorted
      (List.filter (fun p => str_in p ModelHandler.sensor_types)
         (Pandas.unique (List.map Offer.product_type (df self))))
  |}.
Proof.
  unfold ModelHandler.get_available_products. rewrite split_products. reflexivity.
Qed.

(** The two lists together are the product types of the dataset, in
    another order. *)
Lemma products_permutation (self : SupplierRecommender) :
  let products := ModelHandler.get_available_products self in
  Permutation (Products.filtration products ++ Products.sensors products)
    (Pandas.unique (List.map Offer.product_type (df self))).
Proof.
  cbv zeta. rewrite get_available_products_lists.
  cbn [Products.filtration Products.sensors].
  etransitivity; [apply Permutation_app; apply sorted_perm|].
  apply (filter_split_perm (fun p => str_in p ModelHandler.sensor_types)).
Qed.

Lemma product_type_offered (self : SupplierRecommender) (product : string) :
  In product (Pandas.unique (List.map Offer.product_type (df self))) <->
  exists row, In row (df self) /\ Offer.product_type row = product.
Proof.
  rewrite unique_In, List.in_map_iff.
  split; intros (row & H1 & H2); exists row; tauto.
Qed.

(** X1: a product type is listed under the sensors exactly when it is a
    product type of the dataset and one of the five sensor types, and under
    the filtration products exactly when it is a product type of the
    dataset and none of the five; no product type is listed twice. *)
Theorem X1_products_partition (self : SupplierRecommender) (product : string) :
  let products := ModelHandler.get_available_products self in
  let offered := exists row, In row (df self) /\ Offer.product_type row = product in
  (In product (Products.sensors products) <->
   offered /\ In product ModelHandler.sensor_types) /\
  (In product (Products.filtration products) <->
   offered /\ ~ In product ModelHandler.sensor_types) /\
  List.NoDup (Products.filtration products ++ Products.sensors products).
Proof.
  intros products offered.
  split; [|split];
    [| |apply (Permutation_NoDup (Permutation_sym (products_permutation self))),
         unique_NoDup].
  all: subst products; rewrite get_available_products_lists;
    cbn [Products.filtration Products.sensors].
  all: set (types := Pandas.unique (List.map Offer.product_type (df self))).
  all: assert (Hs : forall l, In product (Builtins.sorted l) <-> In product l)
    by (intros l; split; apply Permutation_in;
        [apply sorted_perm | symmetry; apply sorted_perm]).
  - rewrite Hs, List.filter_In, str_in_In. subst types offered.
    rewrite product_type_offered. reflexivity.
  - rewrite Hs, List.filter_In, negb_true_iff. subst types offered.
    rewrite product_type_offered.
    split; intros [H1 H2]; (split; [exact H1|]).
    + intros Hin. apply str_in_In in Hin. congruence.
    + destruct (str_in product ModelHandler.sensor_types) eqn:E; [|reflexivity].
      exfalso. apply H2, str_in_In, E.
Qed.

Lemma X1_products_partition_witness :
  In "valve_butterfly" (Products.filtration (ModelHandler.get_available_products demo)) /\
  ~ In "valve_butterfly" (Products.sensors (ModelHandler.get_available_products demo)).
Proof.
  destruct (X1_products_partition demo "valve_butterfly") as (Hs & Hf & _).
  assert (Hno : ~ In "valve_butterfly" ModelHandler.sensor_types).
  { simpl. intros [H|[H|[H|[H|[H|[]]]]]]; discriminate H. }
  split.
  - apply Hf. split; [|exact Hno].
    exists (Offer.Build "valve_butterfly" "Gamma" "Chile" 4.0 10.004 20 0 true false "EXW").
    split; [right; right; left; reflexivity | reflexivity].
  - intros H. apply Hs in H. tauto.
Defined.

(** X2: each of the two lists is in ascending order of its strings. *)
Theorem X2_products_sorted (self : SupplierRecommender) :
  Sorted (fun a b => String.leb a b = true)
    (Products.filtration (ModelHandler.get_available_products self)) /\
  Sorted (fun a b => String.leb a b = true)
    (Products.sensors (ModelHandler.get_available_products self)).
Proof.
  rewrite get_available_products_lists. split; apply sorted_sorted.
Qed.

(** X3: the [/products] route fails, with status 500, exactly when no
    system is loaded; otherwise its two lists are those of
    [get_available_products] and [total_products] is the number of distinct
    product types of the dataset. *)
Theorem X3_products_route (recommender : option SupplierRecommender) :
  match Routes.get_available_products recommender with
  | Routes.ProductsFails e =>
      recommender = None /\ e = App.HTTPException 500 App.SistemaNoInicializado
  | Routes.ProductsOk response =>
      exists self,
        recommender = Some self /\
        Routes.filtration_products response =
          Products.filtration (ModelHandler.get_available_products self) /\
        Routes.sensor_products response =
          Products.sensors (ModelHandler.get_available_products self) /\
        Routes.total_products response =
          length (Pandas.unique (List.map Offer.product_type (df self)))
  end.
Proof.
  destruct recommender as [self|]; cbn [Routes.get_available_products]; [|tauto].
  exists self. do 3 (split; [reflexivity|]).
  cbn [Routes.total_products]. rewrite <- List.length_app.
  apply Permutation_length, products_permutation.
Qed.

(** * The menu and the questions of the interactive program *)

(** The loop that numbers the products. *)
Lemma number_products (products : list string) (option_num : Z) (product_map : gmap Z string) :
  let numbered :=
    List.fold_left (fun '(option_num, product_map) product =>
        ((option_num + 1)%Z, <[option_num := product]> product_map))
      products (option_num, product_map) in
  fst numbered = (option_num + Z.of_nat (length products))%Z /\
  forall choice : Z,
    snd numbered !! choice =
    if decide (option_num <= choice < option_num + Z.of_nat (length products))%Z
    then nth_error products (Z.to_nat (choice - option_num))
    else product_map !! choice.
Proof.
  cbv zeta. revert option_num product_map.
  induction products as [|p products IH]; intros n m; cbn [List.fold_left length].
  - split; [cbn; lia|]. intros k. cbn [snd]. destruct (decide _); [lia | reflexivity].
  - destruct (IH (n + 1)%Z (<[n := p]> m)) as [IH1 IH2]. split; [lia|].
    intros k. rewrite IH2.
    destruct (decide (n + 1 <= k < n + 1 + Z.of_nat (length products))%Z) as [Hin|Hout];
      destruct (decide (n <= k < n + Z.of_nat (S (length products)))%Z) as [Hin'|Hout'];
      try lia.
    + replace (Z.to_nat (k - n)) with (S (Z.to_nat (k - (n + 1)))) by lia. reflexivity.
    + assert (k = n) by lia. subst k. rewrite lookup_insert_eq.
      replace (n - n)%Z with 0%Z by lia. reflexivity.
    + apply lookup_insert_ne. lia.
Qed.

Lemma show_product_menu_lookup (self : SupplierRecommender) (choice : Z) :
  let products := Program.get_available_products self in
  let options := Products.filtration products ++ Products.sensors products in
  Program.show_product_menu self !! choice =
  if decide (1 <= choice <= Z.of_nat (length options))%Z
  then nth_error options (Z.to_nat (choice - 1))
  else None.
Proof.
  cbv zeta. unfold Program.show_product_menu.
  set (products := Program.get_available_products self).
  pose proof (number_products (Products.filtration products) 1 ∅) as H1.
  cbv zeta in H1.
  destruct (List.fold_left _ (Products.filtration products) (1%Z, ∅)) as [n1 m1].
  cbn [fst snd] in H1. destruct H1 as [Hn1 Hm1].
  pose proof (number_products (Products.sensors products) n1 m1) as H2.
  cbv zeta in H2.
  destruct (List.fold_left _ (Products.sensors products) (n1, m1)) as [n2 m2].
  cbn [fst snd] in H2. destruct H2 as [_ Hm2].
  rewrite Hm2, Hm1, lookup_empty, List.length_app. subst n1.
  set (f := Products.filtration products). set (s := Products.sensors products).
  destruct (decide (1 + Z.of_nat (length f) <= choice <
                    1 + Z.of_nat (length f) + Z.of_nat (length s))%Z) as [Hs|Hs];
    destruct (decide (1 <= choice < 1 + Z.of_nat (length f))%Z) as [Hf|Hf];
    destruct (decide (1 <= choice <= Z.of_nat (length f + length s))%Z) as [Ha|Ha];
    try lia; try reflexivity.
  - rewrite List.nth_error_app2 by lia. f_equal. lia.
  - rewrite List.nth_error_app1 by lia. reflexivity.
Qed.

Lemma program_products (self : SupplierRecommender) :
  Program.get_available_products self = ModelHandler.get_available_products self.
Proof. reflexivity. Qed.

(** X4: the menu numbers the products from 1, the filtration products
    first and the sensors after them, each list in its order; no other
    number is a key of [product_map]. *)
Theorem X4_menu_numbering (self : SupplierRecommender) (choice : Z) (product : string) :
  let products := Program.get_available_products self in
  let options := Products.filtration products ++ Products.sensors products in
  Program.show_product_menu self !! choice = Some product <->
  (1 <= choice <= Z.of_nat (length options))%Z /\
  nth_error options (Z.to_nat (choice - 1)) = Some product.
Proof.
  cbv zeta. rewrite show_product_menu_lookup. cbv zeta.
  destruct (decide _) as [Hin|Hout]; [tauto|].
  split; [discriminate | tauto].
Qed.

(** A product of the menu is a product type of the dataset. *)
Lemma menu_product_offered (self : SupplierRecommender) (choice : Z) (product : string) :
  Program.show_product_menu self !! choice = Some product ->
  exists row, In row (df self) /\ Offer.product_type row = product.
Proof.
  intros Hc. apply product_type_offered.
  apply (Permutation_in _ (products_permutation self)).
  pose proof (show_product_menu_lookup self choice) as Hlook. cbv zeta in Hlook.
  rewrite program_products, Hc in Hlook.
  destruct (decide _); [|discriminate]. symmetry in Hlook.
  eapply nth_error_In, Hlook.
Qed.

(** X5: the products of the menu are the product types of the dataset,
    each under exactly one number. *)
Theorem X5_menu_covers_dataset (self : SupplierRecommender) (product : string) :
  ((exists choice, Program.show_product_menu self !! choice = Some product) <->
   exists row, In row (df self) /\ Offer.product_type row = product) /\
  forall choice choice',
    Program.show_product_menu self !! choice = Some product ->
    Program.show_product_menu self !! choice' = Some product ->
    choice = choice'.
Proof.
  pose proof (show_product_menu_lookup self) as Hlook. cbv zeta in Hlook.
  rewrite program_products in Hlook.
  pose proof (products_permutation self) as Hperm. cbv zeta in Hperm.
  set (products := ModelHandler.get_available_products self) in *.
  set (options := Products.filtration products ++ Products.sensors products) in *.
  assert (Hnd : List.NoDup options).
  { apply (Permutation_NoDup (Permutation_sym Hperm)), unique_NoDup. }
  split; [split|].
  - intros [choice Hc]. exact (menu_product_offered self choice product Hc).
  - intros Hrow. apply product_type_offered in Hrow.
    apply (Permutation_in _ (Permutation_sym Hperm)) in Hrow.
    apply List.In_nth_error in Hrow. destruct Hrow as [i Hi].
    assert (Hlt : (i < length options)%nat) by (apply List.nth_error_Some; congruence).
    exists (Z.of_nat i + 1)%Z. rewrite Hlook.
    destruct (decide _); [|lia].
    replace (Z.to_nat (Z.of_nat i + 1 - 1)) with i by lia. exact Hi.
  - intros c c' Hc Hc'. rewrite Hlook in Hc, Hc'.
    destruct (decide (1 <= c <= _)%Z); [|discriminate].
    destruct (decide (1 <= c' <= _)%Z); [|discriminate].
    assert (E : Z.to_nat (c - 1) = Z.to_nat (c' - 1)).
    { apply (proj1 (List.NoDup_nth_error options) Hnd); [|congruence].
      apply List.nth_error_Some. congruence. }
    lia.
Qed.

(** ** The questions *)

Lemma choose_answered (con : Console) (options : gmap Z string) (lines rest : list string)
    (selected : string) :
  Program.choose con options lines = Answered selected rest ->
  (exists choice, options !! choice = Some selected) /\
  exists consumed, lines = consumed ++ rest /\ (1 <= length consumed)%nat.
Proof.
  induction lines as [|line lines IH]; cbn [Program.choose]; [discriminate|].
  intros H.
  assert (Hskip : Program.choose con options lines = Answered selected rest ->
    (exists choice, options !! choice = Some selected) /\
    exists consumed, line :: lines = consumed ++ rest /\ (1 <= length consumed)%nat).
  { intros H'. destruct (IH H') as (Hc & consumed & -> & Hlen).
    split; [exact Hc|]. exists (line :: consumed). split; [reflexivity | simpl; lia]. }
  destruct (int_of_line con line) as [choice|]; [|exact (Hskip H)].
  destruct (options !! choice) as [v|] eqn:E; [|exact (Hskip H)].
  injection H as <- <-. split; [exists choice; exact E|].
  exists [line]. split; [reflexivity | simpl; lia].
Qed.

Lemma ask_quantity_answered (con : Console) (lines rest : list string) (quantity : Z) :
  Program.ask_quantity con lines = Answered quantity rest ->
  (0 < quantity)%Z /\
  exists consumed, lines = consumed ++ rest /\ (1 <= length consumed)%nat.
Proof.
  induction lines as [|line lines IH]; cbn [Program.ask_quantity]; [discriminate|].
  intros H.
  assert (Hskip : Program.ask_quantity con lines = Answered quantity rest ->
    (0 < quantity)%Z /\
    exists consumed, line :: lines = consumed ++ rest /\ (1 <= length consumed)%nat).
  { intros H'. destruct (IH H') as (Hc & consumed & -> & Hlen).
    split; [exact Hc|]. exists (line :: consumed). split; [reflexivity | simpl; lia]. }
  destruct (int_of_line con line) as [q|]; [|exact (Hskip H)].
  destruct (q >? 0)%Z eqn:E; [|exact (Hskip H)].
  injection H as <- <-. split; [lia|].
  exists [line]. split; [reflexivity | simpl; lia].
Qed.

Lemma ask_budget_answered (con : Console) (lines rest : list string) (budget : Q) :
  Program.ask_budget con lines = Answered budget rest ->
  0 < budget /\
  exists consumed, lines = consumed ++ rest /\ (1 <= length consumed)%nat.
Proof.
  induction lines as [|line lines IH]; cbn [Program.ask_budget]; [discriminate|].
  intros H.
  assert (Hskip : Program.ask_budget con lines = Answered budget rest ->
    0 < budget /\
    exists consumed, line :: lines = consumed ++ rest /\ (1 <= length consumed)%nat).
  { intros H'. destruct (IH H') as (Hc & consumed & -> & Hlen).
    split; [exact Hc|]. exists (line :: consumed). split; [reflexivity | simpl; lia]. }
  destruct (float_of_line con line) as [b|]; [|exact (Hskip H)].
  destruct (Qle_bool b 0) eqn:E; cbn [negb] in H; [exact (Hskip H)|].
  injection H as <- <-. split.
  - apply Qnot_le_lt. intros Hle. apply Qle_bool_iff in Hle. congruence.
  - exists [line]. split; [reflexivity | simpl; lia].
Qed.

Lemma urgency_options_valid (choice : Z) (urgency : string) :
  Program.urgency_options !! choice = Some urgency -> In urgency valid_urgencies.
Proof.
  intros H. apply elem_of_list_to_map_2 in H.
  apply list_elem_of_In in H. simpl in H. simpl.
  destruct H as [H|[H|[H|[H|[]]]]]; injection H as _ <-; tauto.
Qed.

(** The four questions, one after the other. *)
Lemma get_user_input_steps (con : Console) (self : SupplierRecommender)
    (lines rest : list string) (product urgency : string) (quantity : Z) (budget : Q) :
  Program.get_user_input con self lines = Answered (product, urgency, quantity, budget) rest ->
  exists lines1 lines2 lines3,
    Program.choose con (Program.show_product_menu self) lines = Answered product lines1 /\
    Program.choose con Program.urgency_options lines1 = Answered urgency lines2 /\
    Program.ask_quantity con lines2 = Answered quantity lines3 /\
    Program.ask_budget con lines3 = Answered budget rest.
Proof.
  unfold Program.get_user_input. intros H.
  destruct (Program.choose con (Program.show_product_menu self) lines)
    as [p lines1|]; [|discriminate].
  destruct (Program.choose con Program.urgency_options lines1)
    as [u lines2|] eqn:E2; [|discriminate].
  destruct (Program.ask_quantity con lines2) as [q lines3|] eqn:E3; [|discriminate].
  destruct (Program.ask_budget con lines3) as [b lines4|] eqn:E4; [|discriminate].
  injection H as <- <- <- <- <-.
  exists lines1, lines2, lines3. tauto.
Qed.

(** What is selected is on offer and valid. *)
Lemma selected_is_valid (con : Console) (self : SupplierRecommender)
    (lines rest : list string) (product urgency : string) (quantity : Z) (budget : Q) :
  Program.get_user_input con self lines = Answered (product, urgency, quantity, budget) rest ->
  (exists row, In row (df self) /\ Offer.product_type row = product) /\
  In urgency valid_urgencies.
Proof.
  intros H. destruct (get_user_input_steps _ _ _ _ _ _ _ _ H)
    as (lines1 & lines2 & lines3 & E1 & E2 & _).
  destruct (choose_answered _ _ _ _ _ E1) as ([choice Hp] & _).
  destruct (choose_answered _ _ _ _ _ E2) as ([choice' Hu] & _).
  split; [exact (menu_product_offered self choice product Hp)|].
  exact (urgency_options_valid choice' urgency Hu).
Qed.

(** X6: when [get_user_input] returns, the product is a product type of
    the dataset, the urgency is one of Low, Medium, High, Critical, the
    quantity and the budget are positive, and at least four lines were read;
    so on fewer than four lines the input ends first. *)
Theorem X6_get_user_input_valid (con : Console) (self : SupplierRecommender)
    (lines rest : list string) (product urgency : string) (quantity : Z) (budget : Q) :
  Program.get_user_input con self lines = Answered (product, urgency, quantity, budget) rest ->
  (exists row, In row (df self) /\ Offer.product_type row = product) /\
  In urgency valid_urgencies /\
  (0 < quantity)%Z /\
  0 < budget /\
  exists consumed, lines = consumed ++ rest /\ (4 <= length consumed)%nat.
Proof.
  intros H. destruct (get_user_input_steps _ _ _ _ _ _ _ _ H)
    as (lines1 & lines2 & lines3 & E1 & E2 & E3 & E4).
  destruct (choose_answered _ _ _ _ _ E1) as ([choice Hp] & c1 & -> & L1).
  destruct (choose_answered _ _ _ _ _ E2) as ([choice' Hu] & c2 & -> & L2).
  destruct (ask_quantity_answered _ _ _ _ E3) as (Hq & c3 & -> & L3).
  destruct (ask_budget_answered _ _ _ _ E4) as (Hb & c4 & -> & L4).
  split; [exact (menu_product_offered self choice product Hp)|].
  split; [exact (urgency_options_valid choice' urgency Hu)|].
  split; [exact Hq|]. split; [exact Hb|].
  exists (c1 ++ c2 ++ c3 ++ c4). split.
  - rewrite <- !List.app_assoc. reflexivity.
  - rewrite !List.length_app. lia.
Qed.

Lemma X6_get_user_input_valid_witness :
  (exists row, In row (df demo) /\ Offer.product_type row = "valve_butterfly") /\
  In "Low" valid_urgencies /\
  (0 < 2)%Z /\
  0 < 600 /\
  exists consumed,
    ["7"; "2"; "x"; "1"; "0"; "2"; "0"; "600"; "1"] = consumed ++ ["1"] /\
    (4 <= length consumed)%nat.
Proof.
  apply (X6_get_user_input_valid demo_console demo
           ["7"; "2"; "x"; "1"; "0"; "2"; "0"; "600"; "1"] ["1"]
           "valve_butterfly" "Low" 2 600).
  vm_compute. reflexivity.
Defined.

(** X7: for what [get_user_input] returns, [recommend_suppliers] of the
    program never returns an error dictionary: it returns recommendations
    or raises. *)
Theorem X7_program_request_no_error (con : Console) (self : SupplierRecommender)
    (amb : Ambient) (lines rest : list string)
    (product urgency : string) (quantity : Z) (budget : Q) (e : error) :
  Program.get_user_input con self lines = Answered (product, urgency, quantity, budget) rest ->
  Cli.recommend_suppliers self amb product urgency quantity budget <> Returns (ErrorDict e).
Proof.
  intros H. destruct (selected_is_valid _ _ _ _ _ _ _ _ H)
    as ((row & Hrow & Hp) & Hu).
  unfold Cli.recommend_suppliers.
  rewrite (proj2 (str_in_In _ _) Hu). cbn [negb].
  destruct (Pandas.empty _) eqn:Ee.
  - exfalso. apply empty_nil in Ee. assert (Hf : In row []); [|destruct Hf].
    rewrite <- Ee. apply where_eq_In. split; assumption.
  - unfold bind. destruct (for_each _ _); discriminate.
Qed.

Lemma X7_program_request_no_error_witness :
  Cli.recommend_suppliers demo demo_ambient "valve_butterfly" "Low" 2 600 <>
  Returns (ErrorDict (ProductoNoEncontrado ["filter_cloth_roll"; "valve_butterfly"])).
Proof.
  apply (X7_program_request_no_error demo_console demo demo_ambient
           ["7"; "2"; "x"; "1"; "0"; "2"; "0"; "600"; "1"] ["1"]).
  vm_compute. reflexivity.
Defined.

(** * The first entry *)








(** * Exceptions *)





(** * The encoding of the categories *)

Lemma where_first_nth (classes_ : list string) (name : string) (i : nat) :
  Numpy.where_first classes_ name = Some i -> nth_error classes_ i = Some name.
Proof.
  revert i. induction classes_ as [|c rest IH]; simpl; intros i; [discriminate|].
  destruct (String.eqb_spec c name) as [->|Hne].
  - intros E. injection E as <-. reflexivity.
  - destruct (Numpy.where_first rest name) as [j|]; simpl; [|discriminate].
    intros E. injection E as <-. simpl. apply IH. reflexivity.
Qed.

Lemma where_first_zero (classes_ : list string) (name : string) :
  Numpy.where_first classes_ name = Some O <-> List.hd_error classes_ = Some name.
Proof.
  destruct classes_ as [|c rest]; simpl; [split; discriminate|].
  destruct (String.eqb_spec c name) as [->|Hne].
  - tauto.
  - destruct (Numpy.where_first rest name); simpl; split; intros H;
      first [discriminate H | injection H as H; congruence].
Qed.

(** X12: a value that the encoder of its feature knows is replaced by its
    position in [classes_]: the code is within the bounds of [classes_] and
    the class at that position is the value. *)
Theorem X12_encoding_decodes (self : SupplierRecommender) (amb : Ambient)
    (input_data : gmap string cell) (feature : string) (classes_ : list string)
    (column : cell) :
  label_encoders self !! feature = Some classes_ ->
  input_data !! feature = Some column ->
  In (Pandas.astype_str amb column) classes_ ->
  exists code : nat,
    Api.apply_encoding self amb input_data !! feature = Some (CInt (Z.of_nat code)) /\
    (code < length classes_)%nat /\
    nth_error classes_ code = Some (Pandas.astype_str amb column).
Proof.
  intros He Hc Hin. rewrite apply_encoding_lookup, Hc, He.
  unfold LabelEncoder.transform.
  destruct (Numpy.where_first classes_ (Pandas.astype_str amb column)) as [i|] eqn:Ei.
  - exists i. split; [reflexivity|].
    split; [eapply where_first_Some, Ei | apply where_first_nth, Ei].
  - apply where_first_None in Ei. contradiction.
Qed.

Lemma X12_encoding_decodes_witness :
  exists code : nat,
    Api.apply_encoding demo demo_ambient
      (Api.input_frame demo_ambient
         (Offer.Build "valve_butterfly" "Delta" "Peru" 3.5 400 7 15 false true "FOB")
         "valve_butterfly" "Medium" 1 600) !! "order_urgency"
      = Some (CInt (Z.of_nat code)) /\
    (code < length ["Critical"; "High"; "Low"; "Medium"])%nat /\
    nth_error ["Critical"; "High"; "Low"; "Medium"] code
      = Some (Pandas.astype_str demo_ambient (CStr "Medium")).
Proof.
  apply (X12_encoding_decodes demo demo_ambient _ "order_urgency"
           ["Critical"; "High"; "Low"; "Medium"] (CStr "Medium")).
  - vm_compute. reflexivity.
  - vm_compute. reflexivity.
  - simpl. tauto.
Defined.

(** X13: the code 0 stands for two things: a column with an encoder is
    left with code 0 exactly when its value is the first class of the
    encoder or is not one of its classes at all. *)
Theorem X13_code_zero (self : SupplierRecommender) (amb : Ambient)
    (input_data : gmap string cell) (feature : string) (classes_ : list string)
    (column : cell) :
  label_encoders self !! feature = Some classes_ ->
  input_data !! feature = Some column ->
  (Api.apply_encoding self amb input_data !! feature = Some (CInt 0) <->
   List.hd_error classes_ = Some (Pandas.astype_str amb column) \/
   ~ In (Pandas.astype_str amb column) classes_).
Proof.
  intros He Hc. rewrite apply_encoding_lookup, Hc, He.
  unfold LabelEncoder.transform.
  rewrite <- where_first_zero, <- where_first_None.
  destruct (Numpy.where_first classes_ (Pandas.astype_str amb column)) as [i|]; simpl.
  - split.
    + intros E. injection E as E. left. f_equal. lia.
    + intros [E|E]; [|discriminate E]. injection E as ->. reflexivity.
  - split; [right; reflexivity | reflexivity].
Qed.

Lemma X13_code_zero_witness :
  Api.apply_encoding demo demo_ambient
    (Api.input_frame demo_ambient
       (Offer.Build "filter_cloth_roll" "Beta" "Spain" 5.0 120 12 30 true false "CIF")
       "filter_cloth_roll" "Low" 1 1000) !! "incoterms" = Some (CInt 0) /\
  Api.apply_encoding demo demo_ambient
    (Api.input_frame demo_ambient
       (Offer.Build "valve_butterfly" "Gamma" "Chile" 4.0 10.004 20 0 true false "EXW")
       "valve_butterfly" "Low" 1 1000) !! "incoterms" = Some (CInt 0).
Proof.
  split.
  - apply (X13_code_zero demo demo_ambient _ "incoterms" ["CIF"; "FOB"] (CStr "CIF"));
      [vm_compute; reflexivity | vm_compute; reflexivity | left; reflexivity].
  - apply (X13_code_zero demo demo_ambient _ "incoterms" ["CIF"; "FOB"] (CStr "EXW"));
      [vm_compute; reflexivity | vm_compute; reflexivity |].
    right. simpl. intros [H|[H|[]]]; discriminate H.
Defined.

(** X14: the encoding adds no column and removes none, it leaves a column
    that has no encoder as it is, and a column that has one holds an
    integer code afterwards. *)
Theorem X14_encoding_columns (self : SupplierRecommender) (amb : Ambient)
    (input_data : gmap string cell) (feature : string) :
  (Api.apply_encoding self amb input_data !! feature = None <->
   input_data !! feature = None) /\
  (label_encoders self !! feature = None ->
   Api.apply_encoding self amb input_data !! feature = input_data !! feature) /\
  (forall classes_ column,
     label_encoders self !! feature = Some classes_ ->
     input_data !! feature = Some column ->
     exists code, Api.apply_encoding self amb input_data !! feature = Some (CInt code)).
Proof.
  rewrite apply_encoding_lookup. split; [|split].
  - destruct (input_data !! feature) as [column|]; [|tauto].
    destruct (label_encoders self !! feature) as [classes_|];
      [destruct (LabelEncoder.transform _ _)|]; split; discriminate.
  - intros ->. destruct (input_data !! feature); reflexivity.
  - intros classes_ column -> ->.
    destruct (LabelEncoder.transform _ _) as [code|]; eexists; reflexivity.
Qed.

Lemma X14_encoding_columns_witness :
  Api.apply_encoding demo demo_ambient
    (Api.input_frame demo_ambient
       (Offer.Build "valve_butterfly" "Gamma" "Chile" 4.0 10.004 20 0 true false "EXW")
       "valve_butterfly" "Low" 1 1000) !! "price_usd" = Some (CFloat 10.004).
Proof.
  destruct (X14_encoding_columns demo demo_ambient
    (Api.input_frame demo_ambient
       (Offer.Build "valve_butterfly" "Gamma" "Chile" 4.0 10.004 20 0 true false "EXW")
       "valve_butterfly" "Low" 1 1000) "price_usd") as (_ & H & _).
  rewrite H; vm_compute; reflexivity.
Defined.

(** X15: in any month from 1 to 12, with an encoder of the quarter whose
    classes are Q1, Q2, Q3, Q4, the quarter is always one of the classes and
    its code is (month - 1) // 3. *)
Theorem X15_quarter_code (self : SupplierRecommender) (amb : Ambient) (row : Offer.t)
    (product_type urgency : string) (quantity : Z) (budget : Q) :
  (1 <= now_month amb <= 12)%Z ->
  label_encoders self !! "quarter" = Some ["Q1"; "Q2"; "Q3"; "Q4"] ->
  Api.apply_encoding self amb
    (Api.input_frame amb row product_type urgency quantity budget) !! "quarter"
  = Some (CInt ((now_month amb - 1) / 3)).
Proof.
  intros Hm He. rewrite apply_encoding_lookup, He.
  assert (Hq : Api.input_frame amb row product_type urgency quantity budget !! "quarter"
               = Some (CStr ("Q" ++ Pandas.str_of_int ((now_month amb - 1) / 3 + 1)))).
  { unfold Api.input_frame. apply elem_of_list_to_map_1.
    - cbn. repeat (apply NoDup_cons; split;
        [rewrite !list_elem_of_In; simpl; intros H;
         repeat (destruct H as [H|H]; [discriminate H|]); destruct H|]).
      apply NoDup_nil. trivial.
    - apply list_elem_of_In. simpl. do 11 right. left. reflexivity. }
  rewrite Hq. cbn [Pandas.astype_str].
  assert (Hcases : (now_month amb = 1 \/ now_month amb = 2 \/ now_month amb = 3 \/
                    now_month amb = 4 \/ now_month amb = 5 \/ now_month amb = 6 \/
                    now_month amb = 7 \/ now_month amb = 8 \/ now_month amb = 9 \/
                    now_month amb = 10 \/ now_month amb = 11 \/ now_month amb = 12)%Z)
    by lia.
  repeat (destruct Hcases as [->|Hcases]; [vm_compute; reflexivity|]).
  rewrite Hcases. vm_compute. reflexivity.
Qed.

Lemma X15_quarter_code_witness :
  Api.apply_encoding demo demo_ambient
    (Api.input_frame demo_ambient
       (Offer.Build "valve_butterfly" "Gamma" "Chile" 4.0 10.004 20 0 true false "EXW")
       "valve_butterfly" "Low" 1 1000) !! "quarter"
  = Some (CInt ((now_month demo_ambient - 1) / 3)).
Proof.
  apply (X15_quarter_code demo demo_ambient).
  - simpl. lia.
  - vm_compute. reflexivity.
Defined.

(** * The reported numbers *)




(** * The status codes of the handler *)

(** X18: the handler answers with status 400 only for its own three
    checks: an urgency outside the four, a quantity that is not positive, a
    budget that is not positive.  An error dictionary of the recommender
    never leaves with status 400. *)
Theorem X18_status_400 (recommender : option SupplierRecommender) (amb : Ambient)
    (request : App.RecommendationRequest) (d : App.detail) :
  App.recommend_suppliers recommender amb request
    = App.Fails (App.HTTPException 400 d) ->
  (d = App.UrgenciaDebeSerUnaDe valid_urgencies /\
   ~ In (App.urgency request) valid_urgencies) \/
  (d = App.CantidadDebeSerMayorA0 /\ (App.quantity request <= 0)%Z) \/
  (d = App.PresupuestoDebeSerMayorA0 /\ App.budget request <= 0).
Proof.
  unfold App.recommend_suppliers.
  destruct recommender as [self|]; [|discriminate].
  change ["Low"; "Medium"; "High"; "Critical"] with valid_urgencies.
  destruct (str_in (App.urgency request) valid_urgencies) eqn:Eu; cbn [negb].
  - destruct (App.quantity request <=? 0)%Z eqn:Eq.
    + intros H. injection H as <-. right. left. split; [reflexivity | lia].
    + destruct (Qle_bool (App.budget request) 0) eqn:Eb.
      * intros H. injection H as <-. right. right.
        split; [reflexivity | apply Qle_bool_iff, Eb].
      * destruct (App.try_recommend self amb request); discriminate.
  - intros H. injection H as <-. left. split; [reflexivity|].
    intros Hin. apply str_in_In in Hin. congruence.
Qed.

Lemma X18_status_400_witness :
  (App.CantidadDebeSerMayorA0 = App.UrgenciaDebeSerUnaDe valid_urgencies /\
   ~ In "Low" valid_urgencies) \/
  (App.CantidadDebeSerMayorA0 = App.CantidadDebeSerMayorA0 /\ (0 <= 0)%Z) \/
  (App.CantidadDebeSerMayorA0 = App.PresupuestoDebeSerMayorA0 /\ 600 <= 0).
Proof.
  apply (X18_status_400 (Some demo) demo_ambient
           {| App.product_type := "pump"; App.urgency := "Low";
              App.quantity := 0; App.budget := 600 |} App.CantidadDebeSerMayorA0).
  vm_compute. reflexivity.
Defined.

(** X19: a request that passes the three checks of the handler for a
    product type that the dataset does not have is answered with status
    500: the status 400 raised for the recommender's error, which lists the
    product types of the dataset, is caught by the handler's own
    [except Exception]. *)
Theorem X19_not_found_is_500 (self : SupplierRecommender) (amb : Ambient)
    (request : App.RecommendationRequest) :
  In (App.urgency request) valid_urgencies ->
  (0 < App.quantity request)%Z ->
  0 < App.budget request ->
  (forall row, In row (df self) -> Offer.product_type row <> App.product_type request) ->
  App.recommend_suppliers (Some self) amb request =
  App.Fails (App.HTTPException 500
    (App.ErrorEnRecomendacion (App.HTTPException 400
       (App.ResultError (ProductoNoEncontrado
          (Pandas.unique (List.map Offer.product_type (df self)))))))).
Proof.
  intros Hu Hq Hb Hno.
  apply handler_wraps_error_dict; try assumption.
  unfold Api.recommend_suppliers.
  rewrite (proj2 (str_in_In _ _) Hu). cbn [negb].
  rewrite (proj2 (no_rows_empty _ _) Hno). reflexivity.
Qed.

Lemma X19_not_found_is_500_witness :
  App.recommend_suppliers (Some demo) demo_ambient
    {| App.product_type := "pump"; App.urgency := "Low";
       App.quantity := 1; App.budget := 600 |} =
  App.Fails (App.HTTPException 500
    (App.ErrorEnRecomendacion (App.HTTPException 400
       (App.ResultError (ProductoNoEncontrado
          (Pandas.unique (List.map Offer.product_type (df demo)))))))).
Proof.
  apply (X19_not_found_is_500 demo demo_ambient
           {| App.product_type := "pump"; App.urgency := "Low";
              App.quantity := 1; App.budget := 600 |}).
  - simpl. tauto.
  - simpl. lia.
  - reflexivity.
  - intros row Hrow. simpl in Hrow.
    repeat (destruct Hrow as [<-|Hrow]; [discriminate|]). destruct Hrow.
Defined.

(** * The product that is not found, and the empty dataset *)

(** X20: the list in the error for a product that is not found holds every
    product type of the dataset, each once, and never the product type that
    was asked for. *)
Theorem X20_not_found_list (self : SupplierRecommender) (amb : Ambient)
    (product_type urgency : string) (quantity : Z) (budget : Q)
    (available_types : list string) :
  Api.recommend_suppliers self amb product_type urgency quantity budget
    = Returns (ErrorDict (ProductoNoEncontrado available_types)) ->
  List.NoDup available_types /\
  ~ In product_type available_types /\
  forall name,
    In name available_types <->
    exists row, In row (df self) /\ Offer.product_type row = name.
Proof.
  unfold Api.recommend_suppliers.
  destruct (negb _); [discriminate|].
  destruct (Pandas.empty _) eqn:Ee.
  - intros H. injection H as <-.
    pose proof (proj1 (no_rows_empty _ _) Ee) as Hno.
    assert (Hmem : forall name,
              In name (Pandas.unique (List.map Offer.product_type (df self))) <->
              exists row, In row (df self) /\ Offer.product_type row = name).
    { intros name. rewrite unique_In, List.in_map_iff.
      split; intros (row & H1 & H2); exists row; tauto. }
    split; [apply unique_NoDup|]. split; [|exact Hmem].
    intros Hin. apply Hmem in Hin. destruct Hin as (row & Hrow & Hp).
    exact (Hno row Hrow Hp).
  - unfold bind. destruct (for_each _ _); discriminate.
Qed.

Lemma X20_not_found_list_witness :
  List.NoDup ["filter_cloth_roll"; "valve_butterfly"] /\
  ~ In "pump" ["filter_cloth_roll"; "valve_butterfly"] /\
  forall name,
    In name ["filter_cloth_roll"; "valve_butterfly"] <->
    exists row, In row (df demo) /\ Offer.product_type row = name.
Proof.
  apply (X20_not_found_list demo demo_ambient "pump" "Low" 1 600).
  vm_compute. reflexivity.
Defined.

(** X21: on an empty dataset every request with a valid urgency gets the
    error for a product that is not found, with an empty list; the
    [/products] route counts 0 products; and [get_user_input] never returns,
    it reads lines until the input ends. *)
Theorem X21_empty_dataset (self : SupplierRecommender) (amb : Ambient) (con : Console)
    (product_type urgency : string) (quantity : Z) (budget : Q) (lines : list string) :
  df self = [] ->
  (In urgency valid_urgencies ->
   Api.recommend_suppliers self amb product_type urgency quantity budget
     = Returns (ErrorDict (ProductoNoEncontrado []))) /\
  Routes.get_available_products (Some self)
    = Routes.ProductsOk {| Routes.filtration_products := [];
                           Routes.sensor_products := [];
                           Routes.total_products := 0 |} /\
  Program.get_user_input con self lines = EOFError.
Proof.
  intros Hdf. split; [|split].
  - intros Hu. unfold Api.recommend_suppliers.
    rewrite (proj2 (str_in_In _ _) Hu), Hdf. reflexivity.
  - unfold Routes.get_available_products, ModelHandler.get_available_products.
    rewrite Hdf. reflexivity.
  - destruct (Program.get_user_input con self lines) as [[[[p u] q] b] rest|] eqn:E;
      [|reflexivity].
    exfalso. destruct (selected_is_valid _ _ _ _ _ _ _ _ E) as ((row & Hrow & _) & _).
    rewrite Hdf in Hrow. destruct Hrow.
Qed.

Lemma X21_empty_dataset_witness :
  (In "Low" valid_urgencies ->
   Api.recommend_suppliers demo_empty demo_ambient "pump" "Low" 1 600
     = Returns (ErrorDict (ProductoNoEncontrado []))) /\
  Routes.get_available_products (Some demo_empty)
    = Routes.ProductsOk {| Routes.filtration_products := [];
                           Routes.sensor_products := [];
                           Routes.total_products := 0 |} /\
  Program.get_user_input demo_console demo_empty ["1"; "1"; "2"; "600"] = EOFError.
Proof.
  apply (X21_empty_dataset demo_empty demo_ambient demo_console "pump" "Low" 1 600).
  reflexivity.
Defined.
(** * The programs on doubles *)

(** ** Loops, rows and sorting *)

Section DoubleBasics.
Import Binary64 Double.

Lemma dbl_for_each_returns {A B : Type} (body : A -> outcome B) (l : list A) (bs : list B) :
  for_each body l = Returns bs -> Forall2 (fun a b => body a = Returns b) l bs.
Proof.
  revert bs. induction l as [|a l IH]; intros bs H; simpl in H.
  - injection H as <-. constructor.
  - destruct (body a) as [b|e] eqn:Ea; simpl in H; [|discriminate].
    destruct (for_each body l) as [bs'|e] eqn:El; simpl in H; [|discriminate].
    injection H as <-. constructor; auto.
Qed.

Lemma dbl_for_each_total {A B : Type} (body : A -> outcome B) (l : list A) :
  (forall a, In a l -> exists b, body a = Returns b) ->
  exists bs, for_each body l = Returns bs.
Proof.
  induction l as [|a l IH]; intros H; simpl.
  - eexists; reflexivity.
  - destruct (H a) as [b ->]; [left; reflexivity|].
    destruct IH as [bs ->]; [intros; apply H; right; assumption|].
    eexists; reflexivity.
Qed.


Lemma dbl_insert_desc_perm {A : Type} (key : A -> float) (x : A) (l : list A) :
  Permutation (insert_desc key x l) (x :: l).
Proof.
  induction l as [|y l IH]; simpl; [reflexivity|].
  destruct (key y <=? key x)%double; [reflexivity|].
  rewrite IH. apply perm_swap.
Qed.

Lemma dbl_sort_reverse_perm {A : Type} (key : A -> float) (l : list A) :
  Permutation (sort_reverse key l) l.
Proof.
  induction l as [|x l IH]; simpl; [reflexivity|].
  rewrite dbl_insert_desc_perm, IH. reflexivity.
Qed.

Lemma dbl_where_eq_In (col : Offer.t -> string) (value : string) (df : list Offer.t)
    (row : Offer.t) :
  In row (where_eq col value df) <-> In row df /\ col row = value.
Proof.
  unfold where_eq. rewrite List.filter_In, String.eqb_eq. reflexivity.
Qed.

Lemma dbl_empty_nil (l : list Offer.t) : empty l = true <-> l = [].
Proof. destruct l; simpl; split; congruence. Qed.


Lemma dbl_iloc0_first_row (df : list Offer.t) (product_type supplier_name : string)
    (row : Offer.t) :
  iloc0 (where_eq Offer.supplier_name supplier_name
           (where_eq Offer.product_type product_type df)) = Returns row <->
  first_row df product_type supplier_name row.
Proof.
  unfold where_eq. rewrite filter_filter. split.
  - destruct (List.filter _ df) as [|x rest] eqn:E; simpl; [discriminate|].
    intros H. injection H as ->.
    destruct (filter_first _ _ _ _ E) as (before & after & Hdf & Hrow & Hbefore).
    apply andb_true_iff in Hrow. rewrite !String.eqb_eq in Hrow.
    exists before, after. repeat split; try tauto.
    intros row' Hin [H1 H2]. specialize (Hbefore row' Hin).
    apply andb_false_iff in Hbefore. rewrite !String.eqb_neq in Hbefore. tauto.
  - intros (before & after & -> & Hp & Hs & Hbefore).
    rewrite List.filter_app.
    assert (E : List.filter
              (fun a => String.eqb (Offer.product_type a) product_type &&
                        String.eqb (Offer.supplier_name a) supplier_name) before = []).
    { clear -Hbefore. induction before as [|a l IH]; [reflexivity|]. simpl.
      destruct (andb _ _) eqn:Ea.
      - exfalso. apply andb_true_iff in Ea. rewrite !String.eqb_eq in Ea.
        apply (Hbefore a); [left; reflexivity | exact Ea].
      - apply IH. intros row' Hin. apply Hbefore. right. exact Hin. }
    rewrite E. simpl.
    rewrite (proj2 (String.eqb_eq _ _) Hp), (proj2 (String.eqb_eq _ _) Hs). reflexivity.
Qed.

End DoubleBasics.

(** ** The loop bodies on doubles *)

Section DoubleEntries.
Import Binary64 Double.

Lemma dbl_first_row_unique (df : list Offer.t) (product_type supplier_name : string)
    (r1 r2 : Offer.t) :
  first_row df product_type supplier_name r1 ->
  first_row df product_type supplier_name r2 -> r1 = r2.
Proof.
  intros H1 H2. apply dbl_iloc0_first_row in H1, H2. congruence.
Qed.

Lemma dbl_tier_text (sum : float) :
  (if (lit 0.75 <=? sum)%double then "Altamente Recomendado"
   else if (lit 0.6 <=? sum)%double then "Recomendado"
   else if (lit 0.45 <=? sum)%double then "Aceptable"
   else "No Recomendado")
  = level_text (tier_of_score sum).
Proof.
  unfold tier_of_score.
  destruct (lit 0.75 <=? sum)%double; [reflexivity|].
  destruct (lit 0.6 <=? sum)%double; [reflexivity|].
  destruct (lit 0.45 <=? sum)%double; reflexivity.
Qed.


Lemma dbl_order_cost (row : Offer.t) (quantity_f : float) :
  (if negb (Offer.shipping_included row)
   then (Offer.price_usd row * quantity_f + of_int 300)%double
   else (Offer.price_usd row * quantity_f)%double)
  = order_cost row quantity_f.
Proof. unfold order_cost. destruct (Offer.shipping_included row); reflexivity. Qed.

(** What a turn of the loop of the microservice returns. *)
Lemma dbl_recommend_one_fields (self : SupplierRecommender) (amb : Ambient)
    (product_type urgency : string) (quantity : Z) (budget : float)
    (available_products : list Offer.t) (supplier_name : string) (r : Rec.t) :
  Api.recommend_one self amb product_type urgency quantity budget available_products
    supplier_name = Returns r ->
  exists row probability quantity_f,
    iloc0 (where_eq Offer.supplier_name supplier_name available_products) = Returns row /\
    Api.predict self
      (Api.apply_encoding self amb
         (Api.input_frame amb row product_type urgency quantity budget))
      supplier_name = Returns probability /\
    float_of_int quantity = Returns quantity_f /\
    Rec.supplier_name r = supplier_name /\
    api_entry row quantity_f budget probability r.
Proof.
  unfold Api.recommend_one. intros H.
  destruct (iloc0 _) as [row|] eqn:Erow; cbn [bind] in H; [|discriminate].
  destruct (Api.predict _ _ _) as [probability|] eqn:Ep; cbn [bind] in H; [|discriminate].
  destruct (float_of_int quantity) as [quantity_f|] eqn:Eq; cbn [bind] in H; [|discriminate].
  injection H as <-.
  exists row, probability, quantity_f.
  split; [reflexivity|]. split; [exact Ep|]. do 2 (split; [reflexivity|]).
  assert (Hname : Offer.supplier_name row = supplier_name).
  { unfold where_eq in Erow.
    destruct (List.filter _ available_products) as [|x rest] eqn:E; [discriminate|].
    injection Erow as ->.
    assert (Hin : In row (List.filter
                    (fun row => String.eqb (Offer.supplier_name row) supplier_name)
                    available_products)) by (rewrite E; left; reflexivity).
    apply List.filter_In in Hin. apply String.eqb_eq, Hin. }
  unfold api_entry, weighted_sum.
  cbn [Rec.supplier_name Rec.country Rec.quality_rating Rec.price_usd
    Rec.total_cost Rec.delivery_days Rec.payment_terms_days Rec.probability_score
    Rec.within_budget Rec.shipping_included Rec.express_available Rec.final_score
    Rec.recommendation_level].
  rewrite dbl_order_cost, Z.gtb_ltb, dbl_tier_text.
  split; [symmetry; exact Hname|].
  repeat (split; [reflexivity|]). reflexivity.
Qed.


End DoubleEntries.

(** ** The result of the microservice on doubles *)

Section DoubleResult.
Import Binary64 Double.
Context (self : SupplierRecommender) (amb : Ambient).
Context (product_type urgency : string) (quantity : Z) (budget : float).

Local Abbreviation rows := (where_eq Offer.product_type product_type (df self)).
Local Abbreviation names := (Pandas.unique (List.map Offer.supplier_name rows)).

Lemma dbl_recommend_suppliers_result (env : Envelope.t) :
  Api.recommend_suppliers self amb product_type urgency quantity budget
    = Returns (Result env) ->
  exists entries,
    for_each (Api.recommend_one self amb product_type urgency quantity budget rows) names
      = Returns entries /\
    env = {| Envelope.product_type := product_type;
             Envelope.urgency := urgency;
             Envelope.quantity := quantity;
             Envelope.budget := budget;
             Envelope.recommendations := sort_reverse Rec.final_score entries;
             Envelope.total_options := length (sort_reverse Rec.final_score entries) |} /\
    In urgency valid_urgencies /\
    rows <> [].
Proof.
  unfold Api.recommend_suppliers.
  destruct (str_in urgency valid_urgencies) eqn:Eu; cbn [negb]; [|discriminate].
  destruct (empty rows) eqn:Ee; [discriminate|].
  destruct (for_each _ names) as [entries|] eqn:El; cbn [bind]; [|discriminate].
  intros H. injection H as <-. exists entries.
  do 2 (split; [reflexivity|]). split.
  - exact (proj1 (str_in_In _ _) Eu).
  - intros Hn. apply dbl_empty_nil in Hn. congruence.
Qed.

Lemma dbl_entries_in_order (entries : list Rec.t) :
  for_each (Api.recommend_one self amb product_type urgency quantity budget rows) names
    = Returns entries ->
  List.map Rec.supplier_name entries = names /\
  forall r, In r entries ->
    Api.recommend_one self amb product_type urgency quantity budget rows
      (Rec.supplier_name r) = Returns r.
Proof.
  intros H. apply dbl_for_each_returns in H.
  induction H as [|name r names' entries Hr _ IH]; simpl.
  - split; [reflexivity | intros r []].
  - destruct IH as [IH1 IH2].
    destruct (dbl_recommend_one_fields _ _ _ _ _ _ _ _ _ Hr)
      as (row & p & qf & _ & _ & _ & Hn & _).
    split; [rewrite Hn, IH1; reflexivity|].
    intros r' [<-|Hin]; [rewrite Hn; exact Hr | apply IH2, Hin].
Qed.

(** Every entry of the result is made from the first row of its supplier
    and the probability that [predict] gave on that row. *)
Lemma dbl_result_entry (env : Envelope.t) (r : Rec.t) :
  Api.recommend_suppliers self amb product_type urgency quantity budget
    = Returns (Result env) ->
  In r (Envelope.recommendations env) ->
  exists row probability quantity_f,
    first_row (df self) product_type (Rec.supplier_name r) row /\
    Api.predict self
      (Api.apply_encoding self amb
         (Api.input_frame amb row product_type urgency quantity budget))
      (Rec.supplier_name r) = Returns probability /\
    float_of_int quantity = Returns quantity_f /\
    api_entry row quantity_f budget probability r.
Proof.
  intros H Hin.
  destruct (dbl_recommend_suppliers_result env H) as (entries & Hl & -> & _).
  cbn [Envelope.recommendations] in Hin.
  apply (Permutation_in _ (dbl_sort_reverse_perm Rec.final_score entries)) in Hin.
  destruct (dbl_entries_in_order entries Hl) as [_ Hone].
  destruct (dbl_recommend_one_fields _ _ _ _ _ _ _ _ _ (Hone r Hin))
    as (row & p & qf & Hrow & Hp & Hq & _ & He).
  exists row, p, qf.
  split; [apply dbl_iloc0_first_row; exact Hrow|].
  split; [exact Hp|]. split; [exact Hq | exact He].
Qed.

(** Every supplier that offers the product has an entry, made from its
    first row. *)
Lemma dbl_first_row_entry (env : Envelope.t) (row : Offer.t) :
  Api.recommend_suppliers self amb product_type urgency quantity budget
    = Returns (Result env) ->
  first_row (df self) product_type (Offer.supplier_name row) row ->
  exists r probability quantity_f,
    In r (Envelope.recommendations env) /\
    Api.predict self
      (Api.apply_encoding self amb
         (Api.input_frame amb row product_type urgency quantity budget))
      (Offer.supplier_name row) = Returns probability /\
    float_of_int quantity = Returns quantity_f /\
    api_entry row quantity_f budget probability r.
Proof.
  intros H Hfirst.
  destruct (dbl_recommend_suppliers_result env H) as (entries & Hl & -> & _).
  destruct (dbl_entries_in_order entries Hl) as [Hnames Hone].
  assert (Hin : In (Offer.supplier_name row) (List.map Rec.supplier_name entries)).
  { rewrite Hnames. apply unique_In, List.in_map_iff. exists row. split; [reflexivity|].
    destruct Hfirst as (before & after & Hdf & Hp & _).
    apply dbl_where_eq_In. split; [|exact Hp].
    rewrite Hdf. apply List.in_or_app. right. left. reflexivity. }
  apply List.in_map_iff in Hin. destruct Hin as (r & Hname & Hin).
  destruct (dbl_recommend_one_fields _ _ _ _ _ _ _ _ _ (Hone r Hin))
    as (row' & p & qf & Hrow & Hp & Hq & _ & He).
  rewrite Hname in Hrow, Hp.
  apply dbl_iloc0_first_row in Hrow.
  assert (row' = row) as -> by exact (dbl_first_row_unique _ _ _ _ _ Hrow Hfirst).
  exists r, p, qf.
  split; [|split; [exact Hp|]; split; [exact Hq | exact He]].
  cbn [Envelope.recommendations].
  apply (Permutation_in _ (Permutation_sym (dbl_sort_reverse_perm Rec.final_score entries))).
  exact Hin.
Qed.

End DoubleResult.

(** * The reported numbers of the microservice, on doubles *)

Section DoubleScores.
Import Binary64 Double.

(** C1, as the code has it: every entry of a result of the microservice is made
    from the first row of its supplier and from the probability that the
    classifier gave for that supplier on the encoded input of that row.
    Its [probability_score] is that probability rounded to 3 decimals by
    Python's [round], and its [final_score] is Python's [round] to 3
    decimals of the double [probability_score * 0.4 + quality_score * 0.25
    + price_score * 0.2 + delivery_score * 0.1 + payment_score * 0.05],
    each product and each sum, left to right, rounded to the nearest
    double, with [quality_score = quality_rating / 5.0], [price_score] 1.0
    if [within_budget] else 0.5, [delivery_score] 1.0 if [delivery_days <=
    15] else 0.7 and [payment_score] 1.0 if [payment_terms_days > 0] else
    0.8: the sum takes the rounded probability, not the classifier's. *)
Theorem C1_final_score (self : SupplierRecommender) (amb : Ambient)
    (product_type urgency : string) (quantity : Z) (budget : float)
    (env : Envelope.t) (r : Rec.t) :
  Api.recommend_suppliers self amb product_type urgency quantity budget
    = Returns (Result env) ->
  In r (Envelope.recommendations env) ->
  exists row probability,
    first_row (df self) product_type (Rec.supplier_name r) row /\
    Api.predict self
      (Api.apply_encoding self amb
         (Api.input_frame amb row product_type urgency quantity budget))
      (Rec.supplier_name r) = Returns probability /\
    let probability_score := py_round probability 3 in
    let quality_score := (Offer.quality_rating row / lit 5.0)%double in
    let price_score := if Rec.within_budget r then lit 1.0 else lit 0.5 in
    let delivery_score := if (Offer.delivery_days row <=? 15)%Z then lit 1.0 else lit 0.7 in
    let payment_score :=
      if (0 <? Offer.payment_terms_days row)%Z then lit 1.0 else lit 0.8 in
    Rec.probability_score r = probability_score /\
    Rec.final_score r =
      py_round (probability_score * lit 0.4 +
                quality_score * lit 0.25 +
                price_score * lit 0.2 +
                delivery_score * lit 0.1 +
                payment_score * lit 0.05)%double 3.
Proof.
  intros H Hin.
  destruct (dbl_result_entry self amb product_type urgency quantity budget env r H Hin)
    as (row & probability & quantity_f & Hrow & Hp & _ & He).
  exists row, probability. split; [exact Hrow|]. split; [exact Hp|].
  destruct He as (_ & _ & Hq & _ & Hd & Hpay & _ & _ & Hps & _ & _ & Hf & _).
  cbv zeta. split; [exact Hps|].
  rewrite Hf. unfold weighted_sum. rewrite Hps, Hq, Hd, Hpay. reflexivity.
Qed.

Lemma C1_final_score_witness :
  exists row probability,
    first_row (df demo) "filter_cloth_roll" (Rec.supplier_name demo_alfa) row /\
    Api.predict demo
      (Api.apply_encoding demo demo_ambient
         (Api.input_frame demo_ambient row "filter_cloth_roll" "Low" 1 (lit 1000)))
      (Rec.supplier_name demo_alfa) = Returns probability /\
    let probability_score := py_round probability 3 in
    let quality_score := (Offer.quality_rating row / lit 5.0)%double in
    let price_score := if Rec.within_budget demo_alfa then lit 1.0 else lit 0.5 in
    let delivery_score := if (Offer.delivery_days row <=? 15)%Z then lit 1.0 else lit 0.7 in
    let payment_score :=
      if (0 <? Offer.payment_terms_days row)%Z then lit 1.0 else lit 0.8 in
    Rec.probability_score demo_alfa = probability_score /\
    Rec.final_score demo_alfa =
      py_round (probability_score * lit 0.4 +
                quality_score * lit 0.25 +
                price_score * lit 0.2 +
                delivery_score * lit 0.1 +
                payment_score * lit 0.05)%double 3.
Proof.
  apply (C1_final_score demo demo_ambient "filter_cloth_roll" "Low" 1 (lit 1000)
           demo_rolls demo_alfa).
  - vm_compute. reflexivity.
  - right. left. reflexivity.
Defined.

(** C1, as stated, fails: the classifier gives ["Alfa"] the probability
    0.0013.  The weighted sum taken with 0.0013 itself is 0.5755 on the
    exact numbers and rounds to 0.576, and so it does when it is computed
    in doubles, with the weights written first or as the code writes the
    products; the microservice reports 0.575, the round of the sum that
    takes 0.001. *)
Lemma C1_counterexample :
  let row := Offer.Build "filter_cloth_roll" "Alfa" "Italy" (lit 4.5) (lit 100) 10 30
               true true "FOB" in
  Api.recommend_suppliers demo demo_ambient "filter_cloth_roll" "Low" 1 (lit 1000)
    = Returns (Result demo_rolls) /\
  In demo_alfa (Envelope.recommendations demo_rolls) /\
  first_row (df demo) "filter_cloth_roll" "Alfa" row /\
  Api.predict demo
    (Api.apply_encoding demo demo_ambient
       (Api.input_frame demo_ambient row "filter_cloth_roll" "Low" 1 (lit 1000)))
    "Alfa" = Returns (lit 0.0013) /\
  Rec.within_budget demo_alfa = true /\
  Rec.final_score demo_alfa = lit 0.575 /\
  Rounding.round (0.4 * 0.0013 + 0.25 * (4.5 / 5.0) + 0.2 * 1.0 + 0.1 * 1.0 + 0.05 * 1.0) 3
    == 0.576 /\
  py_round (lit 0.4 * lit 0.0013 + lit 0.25 * (lit 4.5 / lit 5.0) + lit 0.2 * lit 1.0 +
            lit 0.1 * lit 1.0 + lit 0.05 * lit 1.0)%double 3 = lit 0.576 /\
  py_round (lit 0.0013 * lit 0.4 + lit 4.5 / lit 5.0 * lit 0.25 + lit 1.0 * lit 0.2 +
            lit 1.0 * lit 0.1 + lit 1.0 * lit 0.05)%double 3 = lit 0.576 /\
  lit 0.575 <> lit 0.576.
Proof.
  cbv zeta.
  split; [vm_compute; reflexivity|].
  split; [right; left; reflexivity|].
  split.
  { exists [], (skipn 1 (df demo)). split; [reflexivity|].
    split; [reflexivity|]. split; [reflexivity|]. intros row' []. }
  split; [vm_compute; reflexivity|].
  split; [reflexivity|].
  split; [vm_compute; reflexivity|].
  split; [vm_compute; reflexivity|].
  split; [vm_compute; reflexivity|].
  split; [vm_compute; reflexivity|].
  vm_compute. discriminate.
Qed.

(** C2, as the code has it: for every entry of a result, [final_score] is
    Python's [round] to 3 decimals of the weighted sum of the entry's own
    fields, and [recommendation_level] is the text of the one tier that
    the thresholds 0.75, 0.6 and 0.45, tried high to low, give to that
    sum before it is rounded; no other tier has that text. *)
Theorem C2_recommendation_level (self : SupplierRecommender) (amb : Ambient)
    (product_type urgency : string) (quantity : Z) (budget : float)
    (env : Envelope.t) (r : Rec.t) :
  Api.recommend_suppliers self amb product_type urgency quantity budget
    = Returns (Result env) ->
  In r (Envelope.recommendations env) ->
  let final_score :=
    (Rec.probability_score r * lit 0.4 +
     Rec.quality_rating r / lit 5.0 * lit 0.25 +
     (if Rec.within_budget r then lit 1.0 else lit 0.5) * lit 0.2 +
     (if (Rec.delivery_days r <=? 15)%Z then lit 1.0 else lit 0.7) * lit 0.1 +
     (if (0 <? Rec.payment_terms_days r)%Z then lit 1.0 else lit 0.8) * lit 0.05)%double in
  let level :=
    if (lit 0.75 <=? final_score)%double then Highest
    else if (lit 0.6 <=? final_score)%double then Second
    else if (lit 0.45 <=? final_score)%double then Third
    else Lowest in
  Rec.final_score r = py_round final_score 3 /\
  Rec.recommendation_level r = level_text level /\
  forall t, Rec.recommendation_level r = level_text t -> t = level.
Proof.
  intros H Hin.
  destruct (dbl_result_entry self amb product_type urgency quantity budget env r H Hin)
    as (row & probability & quantity_f & _ & _ & _ & He).
  destruct He as (_ & _ & _ & _ & _ & _ & _ & _ & _ & _ & _ & Hf & Hl).
  cbv zeta. split; [exact Hf|]. split; [exact Hl|].
  intros t Ht. apply level_text_inj. rewrite <- Ht. exact Hl.
Qed.

Lemma C2_recommendation_level_witness :
  let final_score :=
    (Rec.probability_score demo_beta * lit 0.4 +
     Rec.quality_rating demo_beta / lit 5.0 * lit 0.25 +
     (if Rec.within_budget demo_beta then lit 1.0 else lit 0.5) * lit 0.2 +
     (if (Rec.delivery_days demo_beta <=? 15)%Z then lit 1.0 else lit 0.7) * lit 0.1 +
     (if (0 <? Rec.payment_terms_days demo_beta)%Z then lit 1.0 else lit 0.8) * lit 0.05)%double in
  let level :=
    if (lit 0.75 <=? final_score)%double then Highest
    else if (lit 0.6 <=? final_score)%double then Second
    else if (lit 0.45 <=? final_score)%double then Third
    else Lowest in
  Rec.final_score demo_beta = py_round final_score 3 /\
  Rec.recommendation_level demo_beta = level_text level /\
  forall t, Rec.recommendation_level demo_beta = level_text t -> t = level.
Proof.
  apply (C2_recommendation_level demo demo_ambient "filter_cloth_roll" "Low" 1 (lit 1000)
           demo_rolls demo_beta).
  - vm_compute. reflexivity.
  - left. reflexivity.
Defined.

(** C2, as stated, fails: ["Beta"] is reported with the final score
    0.75, to which the thresholds give the highest tier, and with the
    text of the second tier: its sum is 0.7496 before it is rounded. *)
Lemma C2_counterexample :
  Api.recommend_suppliers demo demo_ambient "filter_cloth_roll" "Low" 1 (lit 1000)
    = Returns (Result demo_rolls) /\
  In demo_beta (Envelope.recommendations demo_rolls) /\
  Rec.final_score demo_beta = lit 0.75 /\
  (lit 0.75 <=? Rec.final_score demo_beta)%double = true /\
  tier_of_score (Rec.final_score demo_beta) = Highest /\
  Rec.recommendation_level demo_beta = level_text Second /\
  Rec.recommendation_level demo_beta <> level_text Highest.
Proof.
  split; [vm_compute; reflexivity|].
  split; [left; reflexivity|].
  split; [reflexivity|].
  split; [vm_compute; reflexivity|].
  split; [vm_compute; reflexivity|].
  split; [reflexivity|].
  vm_compute. discriminate.
Qed.

(** C5, as the code has it: for every entry of a result, the quantity converts
    to a double, and with [cost] the double [price_usd * quantity] when
    [shipping_included], [price_usd * quantity + 300] otherwise, each
    product and sum rounded to the nearest double, the reported
    [total_cost] is Python's [round] of [cost] to 2 decimals and
    [within_budget] is [cost <= budget], on the cost before it is rounded;
    the price and the shipping flag are those of the supplier's first
    row. *)
Theorem C5_total_cost (self : SupplierRecommender) (amb : Ambient)
    (product_type urgency : string) (quantity : Z) (budget : float)
    (env : Envelope.t) (r : Rec.t) :
  Api.recommend_suppliers self amb product_type urgency quantity budget
    = Returns (Result env) ->
  In r (Envelope.recommendations env) ->
  exists row quantity_f,
    first_row (df self) product_type (Rec.supplier_name r) row /\
    float_of_int quantity = Returns quantity_f /\
    Rec.price_usd r = Offer.price_usd row /\
    Rec.shipping_included r = Offer.shipping_included row /\
    let cost :=
      if Rec.shipping_included r
      then (Rec.price_usd r * quantity_f)%double
      else (Rec.price_usd r * quantity_f + of_int 300)%double in
    Rec.total_cost r = py_round cost 2 /\
    Rec.within_budget r = (cost <=? budget)%double.
Proof.
  intros H Hin.
  destruct (dbl_result_entry self amb product_type urgency quantity budget env r H Hin)
    as (row & probability & quantity_f & Hrow & _ & Hq & He).
  destruct He as (_ & _ & _ & Hprice & _ & _ & Hship & _ & _ & Hcost & Hw & _).
  exists row, quantity_f.
  split; [exact Hrow|]. split; [exact Hq|]. split; [exact Hprice|]. split; [exact Hship|].
  cbv zeta. rewrite Hprice, Hship. split; [exact Hcost | exact Hw].
Qed.

Lemma C5_total_cost_witness :
  exists row quantity_f,
    first_row (df demo) "valve_butterfly" (Rec.supplier_name demo_delta) row /\
    float_of_int 1 = Returns quantity_f /\
    Rec.price_usd demo_delta = Offer.price_usd row /\
    Rec.shipping_included demo_delta = Offer.shipping_included row /\
    let cost :=
      if Rec.shipping_included demo_delta
      then (Rec.price_usd demo_delta * quantity_f)%double
      else (Rec.price_usd demo_delta * quantity_f + of_int 300)%double in
    Rec.total_cost demo_delta = py_round cost 2 /\
    Rec.within_budget demo_delta = (cost <=? lit 10)%double.
Proof.
  apply (C5_total_cost demo demo_ambient "valve_butterfly" "Low" 1 (lit 10)
           demo_valves demo_delta).
  - vm_compute. reflexivity.
  - right. left. reflexivity.
Defined.

(** C5, as stated, fails: one valve of ["Gamma"], shipping included,
    costs 10.004.  The reported [total_cost] is 10.0 and not the price
    times the quantity, and [within_budget] is false for the budget 10
    although the reported [total_cost] is within it. *)
Lemma C5_counterexample :
  Api.recommend_suppliers demo demo_ambient "valve_butterfly" "Low" 1 (lit 10)
    = Returns (Result demo_valves) /\
  In demo_gamma (Envelope.recommendations demo_valves) /\
  Rec.shipping_included demo_gamma = true /\
  (Rec.price_usd demo_gamma * of_int 1)%double = lit 10.004 /\
  Rec.total_cost demo_gamma = lit 10 /\
  lit 10 <> lit 10.004 /\
  Rec.within_budget demo_gamma = false /\
  (Rec.total_cost demo_gamma <=? lit 10)%double = true.
Proof.
  split; [vm_compute; reflexivity|].
  split; [left; reflexivity|].
  split; [reflexivity|].
  split; [vm_compute; reflexivity|].
  split; [reflexivity|].
  split; [vm_compute; discriminate|].
  split; [reflexivity|].
  vm_compute. reflexivity.
Qed.

End DoubleScores.

(** * Encoding, prediction and the success of the loop, on doubles *)

Section DoubleTotality.
Import Binary64 Double.

(** What the encoding loop leaves in each column. *)
Lemma dbl_apply_encoding_lookup (self : SupplierRecommender) (amb : Ambient)
    (input_data : gmap string cell) (feature : string) :
  Api.apply_encoding self amb input_data !! feature =
  match input_data !! feature with
  | None => None
  | Some column =>
      match label_encoders self !! feature with
      | None => Some column
      | Some classes_ =>
          match LabelEncoder.transform classes_ (astype_str amb column) with
          | Some code => Some (CInt code)
          | None => Some (CInt 0)
          end
      end
  end.
Proof.
  unfold Api.apply_encoding. revert feature.
  apply (map_fold_weak_ind (fun (r : gmap string cell) (m : gmap string (list string)) =>
    forall feature, r !! feature =
      match input_data !! feature with
      | None => None
      | Some column =>
          match m !! feature with
          | None => Some column
          | Some classes_ =>
              match LabelEncoder.transform classes_ (astype_str amb column) with
              | Some code => Some (CInt code)
              | None => Some (CInt 0)
              end
          end
      end)).
  - intros feature. rewrite lookup_empty. destruct (input_data !! feature); reflexivity.
  - intros i x m r Hi IH feature.
    pose proof (IH i) as Hri. rewrite Hi in Hri.
    destruct (decide (i = feature)) as [->|Hne].
    + rewrite lookup_insert_eq.
      destruct (input_data !! feature) as [column|]; rewrite Hri.
      * destruct (LabelEncoder.transform x (astype_str amb column));
          apply lookup_insert_eq.
      * exact Hri.
    + rewrite (lookup_insert_ne m i feature x Hne).
      destruct (r !! i) as [column|]; [|apply IH].
      destruct (LabelEncoder.transform x (astype_str amb column));
        rewrite lookup_insert_ne by exact Hne; apply IH.
Qed.

Lemma dbl_input_frame_columns (amb : Ambient) (row : Offer.t) (product_type urgency : string)
    (quantity : Z) (budget : float) (name : string) :
  In name input_columns ->
  exists column, Api.input_frame amb row product_type urgency quantity budget !! name
                 = Some column.
Proof.
  unfold input_columns. simpl.
  intros H. repeat (destruct H as [<-|H]; [eexists; vm_compute; reflexivity|]).
  destruct H.
Qed.

Lemma dbl_input_frame_missing (amb : Ambient) (row : Offer.t) (product_type urgency : string)
    (quantity : Z) (budget : float) (name : string) :
  ~ In name input_columns ->
  Api.input_frame amb row product_type urgency quantity budget !! name = None.
Proof.
  intros Hn. unfold Api.input_frame. apply not_elem_of_list_to_map_1.
  intros H. apply list_elem_of_In in H. exact (Hn H).
Qed.

(** A feature name is a column of the encoded input exactly when it is
    one of the twelve columns of [input_data]. *)
Lemma dbl_encoded_column (self : SupplierRecommender) (amb : Ambient) (row : Offer.t)
    (product_type urgency : string) (quantity : Z) (budget : float) (name : string) :
  match Api.apply_encoding self amb
          (Api.input_frame amb row product_type urgency quantity budget) !! name with
  | Some _ => In name input_columns
  | None => ~ In name input_columns
  end.
Proof.
  rewrite dbl_apply_encoding_lookup.
  destruct (List.in_dec String.string_dec name input_columns) as [Hin|Hn].
  - destruct (dbl_input_frame_columns amb row product_type urgency quantity budget name Hin)
      as [column ->].
    destruct (label_encoders self !! name) as [classes_|]; [|exact Hin].
    destruct (LabelEncoder.transform _ _); exact Hin.
  - rewrite (dbl_input_frame_missing amb row product_type urgency quantity budget name Hn).
    exact Hn.
Qed.

Lemma dbl_columns_total (input_data : gmap string cell) (names : list string) :
  (forall name, In name names -> exists column, input_data !! name = Some column) ->
  exists cells, columns input_data names = Some cells.
Proof.
  induction names as [|name rest IH]; intros H; cbn [columns].
  - eexists; reflexivity.
  - destruct (H name) as [column ->]; [left; reflexivity|].
    destruct IH as [cells ->]; [intros; apply H; right; assumption|].
    eexists; reflexivity.
Qed.

(** The vector that [input_data[names]] gives holds, at each position,
    the column of the name at that position. *)
Lemma dbl_columns_nth (input_data : gmap string cell) (names : list string)
    (cells : list cell) (i : nat) (name : string) :
  columns input_data names = Some cells ->
  nth_error names i = Some name ->
  nth_error cells i = input_data !! name.
Proof.
  revert cells i. induction names as [|n rest IH]; intros cells i Hc Hn.
  - destruct i; discriminate.
  - cbn [columns] in Hc.
    destruct (input_data !! n) as [c|] eqn:En; [|discriminate].
    destruct (columns input_data rest) as [cs|] eqn:Ers; [|discriminate].
    injection Hc as <-.
    destruct i as [|i]; simpl in Hn |- *.
    + injection Hn as <-. symmetry. exact En.
    + exact (IH cs i eq_refl Hn).
Qed.

Lemma dbl_select_columns_returns (self : SupplierRecommender) (amb : Ambient) (row : Offer.t)
    (product_type urgency : string) (quantity : Z) (budget : float) :
  schema_ok self ->
  exists vector,
    select_columns
      (Api.apply_encoding self amb
         (Api.input_frame amb row product_type urgency quantity budget))
      (feature_names self) = Returns vector /\
    columns
      (Api.apply_encoding self amb
         (Api.input_frame amb row product_type urgency quantity budget))
      (feature_names self) = Some vector.
Proof.
  intros Hs. unfold select_columns.
  destruct (dbl_columns_total
              (Api.apply_encoding self amb
                 (Api.input_frame amb row product_type urgency quantity budget))
              (feature_names self)) as [cells ->]; [|eexists; split; reflexivity].
  intros name Hname.
  pose proof (dbl_encoded_column self amb row product_type urgency quantity budget name) as Hc.
  destruct (Api.apply_encoding _ _ _ !! name) as [column|]; [eexists; reflexivity|].
  exfalso. exact (Hc (Hs name Hname)).
Qed.

Lemma dbl_predict_returns (self : SupplierRecommender) (amb : Ambient) (row : Offer.t)
    (product_type urgency : string) (quantity : Z) (budget : float) (supplier_name : string) :
  schema_ok self -> model_answers self -> classes_covered self ->
  exists vector probabilities probability,
    select_columns
      (Api.apply_encoding self amb
         (Api.input_frame amb row product_type urgency quantity budget))
      (feature_names self) = Returns vector /\
    model self vector = Returns probabilities /\
    match Numpy.where_first (target_encoder self) supplier_name with
    | Some supplier_idx => nth_error probabilities supplier_idx = Some probability
    | None => probability = lit 0.0
    end /\
    Api.predict self
      (Api.apply_encoding self amb
         (Api.input_frame amb row product_type urgency quantity budget))
      supplier_name = Returns probability.
Proof.
  intros Hs Hm Hc. unfold Api.predict.
  destruct (dbl_select_columns_returns self amb row product_type urgency quantity budget Hs)
    as (vector & Hv & _).
  destruct (Hm vector) as [probabilities Hp].
  exists vector, probabilities. rewrite Hv. cbn [bind]. rewrite Hp. cbn [bind].
  destruct (Numpy.where_first _ _) as [idx|] eqn:Ei.
  - apply where_first_Some in Ei. specialize (Hc vector probabilities Hp).
    unfold getitem.
    destruct (nth_error probabilities idx) as [probability|] eqn:En.
    + exists probability. repeat split; reflexivity.
    + apply nth_error_None in En. lia.
  - exists (lit 0.0). repeat split; reflexivity.
Qed.

Lemma dbl_recommend_one_returns (self : SupplierRecommender) (amb : Ambient)
    (product_type urgency : string) (quantity : Z) (budget quantity_f : float)
    (available_products : list Offer.t) (supplier_name : string) :
  schema_ok self -> model_answers self -> classes_covered self ->
  float_of_int quantity = Returns quantity_f ->
  In supplier_name (List.map Offer.supplier_name available_products) ->
  exists r,
    Api.recommend_one self amb product_type urgency quantity budget available_products
      supplier_name = Returns r.
Proof.
  intros Hs Hm Hc Hq Hin. unfold Api.recommend_one.
  apply List.in_map_iff in Hin. destruct Hin as (row & Hname & Hrow).
  destruct (where_eq Offer.supplier_name supplier_name available_products)
    as [|first rest] eqn:Ew.
  - exfalso. assert (Hf : In row []); [|destruct Hf].
    rewrite <- Ew. apply dbl_where_eq_In. split; assumption.
  - cbn [iloc0 bind].
    destruct (dbl_predict_returns self amb first product_type urgency quantity budget
                supplier_name Hs Hm Hc) as (vector & probabilities & probability & _ & _ & _ & ->).
    cbn [bind]. rewrite Hq. cbn [bind].
    eexists. reflexivity.
Qed.

(** With artefacts that fit together, a valid urgency, a product of the
    dataset and a quantity that converts to a double, the microservice
    returns a result. *)
Lemma dbl_recommend_suppliers_returns (self : SupplierRecommender) (amb : Ambient)
    (product_type urgency : string) (quantity : Z) (budget quantity_f : float) :
  schema_ok self -> model_answers self -> classes_covered self ->
  In urgency valid_urgencies ->
  float_of_int quantity = Returns quantity_f ->
  (exists row, In row (df self) /\ Offer.product_type row = product_type) ->
  exists env,
    Api.recommend_suppliers self amb product_type urgency quantity budget
      = Returns (Result env).
Proof.
  intros Hs Hm Hc Hu Hq (row & Hrow & Hp). unfold Api.recommend_suppliers.
  rewrite (proj2 (str_in_In _ _) Hu). cbn [negb].
  destruct (empty _) eqn:Ee.
  - exfalso. apply dbl_empty_nil in Ee. assert (Hf : In row []); [|destruct Hf].
    rewrite <- Ee. apply dbl_where_eq_In. split; assumption.
  - destruct (dbl_for_each_total
      (Api.recommend_one self amb product_type urgency quantity budget
         (where_eq Offer.product_type product_type (df self)))
      (Pandas.unique (List.map Offer.supplier_name
         (where_eq Offer.product_type product_type (df self))))) as [entries ->].
    + intros name Hname. apply (proj1 (unique_In _ _)) in Hname.
      exact (dbl_recommend_one_returns self amb product_type urgency quantity budget
               quantity_f _ name Hs Hm Hc Hq Hname).
    + cbn [bind]. eexists. reflexivity.
Qed.

Lemma dbl_demo_schema_ok : schema_ok demo.
Proof. intros name H. exact H. Qed.

Lemma dbl_demo_model_answers : model_answers demo.
Proof. intros vector. eexists. reflexivity. Qed.

Lemma dbl_demo_classes_covered : classes_covered demo.
Proof. intros vector probabilities E. injection E as <-. simpl. lia. Qed.

End DoubleTotality.

(** * Suppliers and categories the artefacts do not know, on doubles *)

Section DoubleUnknown.
Import Binary64 Double.

Lemma dbl_select_columns_inv (input_data : gmap string cell) (names : list string)
    (vector : list cell) :
  select_columns input_data names = Returns vector ->
  columns input_data names = Some vector.
Proof.
  unfold select_columns. destruct (columns input_data names) as [cells|].
  - intros E. injection E as <-. reflexivity.
  - destruct (Nat.eqb _ _); discriminate.
Qed.

(** C7: with artefacts that fit together, a valid urgency and a quantity
    that converts to a double, a supplier that offers the product and
    whose name is not a class of the target encoder gets the probability
    0.0 from [predict], and the request returns a result with an entry
    for that supplier whose thirteen fields are those that the supplier's
    first row, the order and the probability 0.0 fix: the fields of the
    row, [probability_score] 0.0, the rounded cost and [within_budget] of
    the order, the final score of the weighted sum in which the
    probability term is [0.0 * 0.4], and the level of that sum. *)
Theorem C7_unknown_supplier (self : SupplierRecommender) (amb : Ambient)
    (product_type urgency : string) (quantity : Z) (budget quantity_f : float)
    (row : Offer.t) :
  schema_ok self -> model_answers self -> classes_covered self ->
  In urgency valid_urgencies ->
  float_of_int quantity = Returns quantity_f ->
  first_row (df self) product_type (Offer.supplier_name row) row ->
  ~ In (Offer.supplier_name row) (target_encoder self) ->
  Api.predict self
    (Api.apply_encoding self amb
       (Api.input_frame amb row product_type urgency quantity budget))
    (Offer.supplier_name row) = Returns (lit 0.0) /\
  exists env r,
    Api.recommend_suppliers self amb product_type urgency quantity budget
      = Returns (Result env) /\
    In r (Envelope.recommendations env) /\
    api_entry row quantity_f budget (lit 0.0) r /\
    Rec.probability_score r = lit 0.0 /\
    let final_score :=
      (lit 0.0 * lit 0.4 +
       Offer.quality_rating row / lit 5.0 * lit 0.25 +
       (if (order_cost row quantity_f <=? budget)%double then lit 1.0 else lit 0.5) * lit 0.2 +
       (if (Offer.delivery_days row <=? 15)%Z then lit 1.0 else lit 0.7) * lit 0.1 +
       (if (0 <? Offer.payment_terms_days row)%Z then lit 1.0 else lit 0.8) * lit 0.05)%double in
    Rec.final_score r = py_round final_score 3 /\
    Rec.recommendation_level r = level_text (tier_of_score final_score).
Proof.
  intros Hs Hm Hc Hu Hq Hfirst Hn.
  destruct (dbl_predict_returns self amb row product_type urgency quantity budget
              (Offer.supplier_name row) Hs Hm Hc)
    as (vector & probabilities & probability & _ & _ & Hidx & Hp).
  rewrite (proj2 (where_first_None _ _) Hn) in Hidx. subst probability.
  split; [exact Hp|].
  destruct (dbl_recommend_suppliers_returns self amb product_type urgency quantity budget
              quantity_f Hs Hm Hc Hu Hq) as [env Henv].
  { destruct Hfirst as (before & after & Hdf & Hpt & _).
    exists row. split; [|exact Hpt].
    rewrite Hdf. apply List.in_or_app. right. left. reflexivity. }
  destruct (dbl_first_row_entry self amb product_type urgency quantity budget env row
              Henv Hfirst) as (r & p & qf & Hin & Hp' & Hq' & He).
  assert (p = lit 0.0) as -> by congruence.
  assert (qf = quantity_f) as -> by congruence.
  exists env, r. split; [exact Henv|]. split; [exact Hin|]. split; [exact He|].
  destruct He as (_ & _ & Hrating & _ & Hd & Hpay & _ & _ & Hps & _ & Hw & Hf & Hl).
  assert (Hzero : Rec.probability_score r = lit 0.0) by (rewrite Hps; reflexivity).
  split; [exact Hzero|].
  assert (Hsum : weighted_sum r =
    (lit 0.0 * lit 0.4 +
     Offer.quality_rating row / lit 5.0 * lit 0.25 +
     (if (order_cost row quantity_f <=? budget)%double then lit 1.0 else lit 0.5) * lit 0.2 +
     (if (Offer.delivery_days row <=? 15)%Z then lit 1.0 else lit 0.7) * lit 0.1 +
     (if (0 <? Offer.payment_terms_days row)%Z then lit 1.0 else lit 0.8) * lit 0.05)%double).
  { unfold weighted_sum. rewrite Hzero, Hrating, Hw, Hd, Hpay. reflexivity. }
  cbv zeta. rewrite <- Hsum. split; [exact Hf | exact Hl].
Qed.

Lemma C7_unknown_supplier_witness :
  let row := Offer.Build "valve_butterfly" "Delta" "Peru" (lit 3.5) (lit 400) 7 15
               false true "FOB" in
  Api.predict demo
    (Api.apply_encoding demo demo_ambient
       (Api.input_frame demo_ambient row "valve_butterfly" "Low" 1 (lit 10)))
    (Offer.supplier_name row) = Returns (lit 0.0) /\
  exists env r,
    Api.recommend_suppliers demo demo_ambient "valve_butterfly" "Low" 1 (lit 10)
      = Returns (Result env) /\
    In r (Envelope.recommendations env) /\
    api_entry row (of_int 1) (lit 10) (lit 0.0) r /\
    Rec.probability_score r = lit 0.0 /\
    let final_score :=
      (lit 0.0 * lit 0.4 +
       Offer.quality_rating row / lit 5.0 * lit 0.25 +
       (if (order_cost row (of_int 1) <=? lit 10)%double then lit 1.0 else lit 0.5) * lit 0.2 +
       (if (Offer.delivery_days row <=? 15)%Z then lit 1.0 else lit 0.7) * lit 0.1 +
       (if (0 <? Offer.payment_terms_days row)%Z then lit 1.0 else lit 0.8) * lit 0.05)%double in
    Rec.final_score r = py_round final_score 3 /\
    Rec.recommendation_level r = level_text (tier_of_score final_score).
Proof.
  apply (C7_unknown_supplier demo demo_ambient "valve_butterfly" "Low" 1 (lit 10) (of_int 1)
           (Offer.Build "valve_butterfly" "Delta" "Peru" (lit 3.5) (lit 400) 7 15
              false true "FOB")).
  - exact dbl_demo_schema_ok.
  - exact dbl_demo_model_answers.
  - exact dbl_demo_classes_covered.
  - simpl. tauto.
  - vm_compute. reflexivity.
  - exists (firstn 4 (df demo)), (skipn 5 (df demo)).
    split; [reflexivity|]. split; [reflexivity|]. split; [reflexivity|].
    intros row' Hin [Hp Hn]. simpl in Hin.
    repeat (destruct Hin as [<-|Hin]; [discriminate Hn|]). destruct Hin.
  - simpl. intros H. repeat (destruct H as [H|H]; [discriminate H|]). destruct H.
Defined.

(** C8: with artefacts that fit together, a valid urgency and a quantity
    that converts to a double, when the label encoder of a feature does
    not know the value that the input of a supplier's first row has in
    that column, the encoded input has the code 0 there, the vector that
    is given to the classifier has the code 0 at every position of that
    feature, the classifier is asked on that vector, and the request
    returns a result in which the entry of the supplier is the one that
    the row, the order and the probability taken from that answer fix. *)
Theorem C8_unseen_category (self : SupplierRecommender) (amb : Ambient)
    (product_type urgency : string) (quantity : Z) (budget quantity_f : float)
    (row : Offer.t) (feature : string) (classes_ : list string) (column : cell) :
  schema_ok self -> model_answers self -> classes_covered self ->
  In urgency valid_urgencies ->
  float_of_int quantity = Returns quantity_f ->
  first_row (df self) product_type (Offer.supplier_name row) row ->
  label_encoders self !! feature = Some classes_ ->
  Api.input_frame amb row product_type urgency quantity budget !! feature = Some column ->
  ~ In (astype_str amb column) classes_ ->
  let input_data :=
    Api.apply_encoding self amb
      (Api.input_frame amb row product_type urgency quantity budget) in
  input_data !! feature = Some (CInt 0) /\
  exists vector probabilities probability env r,
    select_columns input_data (feature_names self) = Returns vector /\
    (forall i, nth_error (feature_names self) i = Some feature ->
               nth_error vector i = Some (CInt 0)) /\
    model self vector = Returns probabilities /\
    match Numpy.where_first (target_encoder self) (Offer.supplier_name row) with
    | Some supplier_idx => nth_error probabilities supplier_idx = Some probability
    | None => probability = lit 0.0
    end /\
    Api.recommend_suppliers self amb product_type urgency quantity budget
      = Returns (Result env) /\
    In r (Envelope.recommendations env) /\
    api_entry row quantity_f budget probability r.
Proof.
  intros Hs Hm Hc Hu Hq Hfirst Henc Hcol Hunseen input_data.
  assert (Hzero : input_data !! feature = Some (CInt 0)).
  { subst input_data. rewrite dbl_apply_encoding_lookup, Hcol, Henc.
    rewrite (proj2 (transform_unseen _ _) Hunseen). reflexivity. }
  split; [exact Hzero|].
  destruct (dbl_predict_returns self amb row product_type urgency quantity budget
              (Offer.supplier_name row) Hs Hm Hc)
    as (vector & probabilities & probability & Hv & Hmodel & Hidx & Hp).
  destruct (dbl_recommend_suppliers_returns self amb product_type urgency quantity budget
              quantity_f Hs Hm Hc Hu Hq) as [env Henv].
  { destruct Hfirst as (before & after & Hdf & Hpt & _).
    exists row. split; [|exact Hpt].
    rewrite Hdf. apply List.in_or_app. right. left. reflexivity. }
  destruct (dbl_first_row_entry self amb product_type urgency quantity budget env row
              Henv Hfirst) as (r & p & qf & Hin & Hp' & Hq' & He).
  assert (p = probability) as -> by congruence.
  assert (qf = quantity_f) as -> by congruence.
  exists vector, probabilities, probability, env, r.
  split; [exact Hv|]. split.
  { intros i Hi. rewrite <- Hzero.
    exact (dbl_columns_nth input_data (feature_names self) vector i feature
             (dbl_select_columns_inv _ _ _ Hv) Hi). }
  split; [exact Hmodel|]. split; [exact Hidx|]. split; [exact Henv|].
  split; [exact Hin | exact He].
Qed.

Lemma C8_unseen_category_witness :
  let row := Offer.Build "valve_butterfly" "Gamma" "Chile" (lit 4.0) (lit 10.004) 20 0
               true false "EXW" in
  let input_data :=
    Api.apply_encoding demo demo_ambient
      (Api.input_frame demo_ambient row "valve_butterfly" "Low" 1 (lit 10)) in
  input_data !! "product_type" = Some (CInt 0) /\
  exists vector probabilities probability env r,
    select_columns input_data (feature_names demo) = Returns vector /\
    (forall i, nth_error (feature_names demo) i = Some "product_type" ->
               nth_error vector i = Some (CInt 0)) /\
    model demo vector = Returns probabilities /\
    match Numpy.where_first (target_encoder demo) (Offer.supplier_name row) with
    | Some supplier_idx => nth_error probabilities supplier_idx = Some probability
    | None => probability = lit 0.0
    end /\
    Api.recommend_suppliers demo demo_ambient "valve_butterfly" "Low" 1 (lit 10)
      = Returns (Result env) /\
    In r (Envelope.recommendations env) /\
    api_entry row (of_int 1) (lit 10) probability r.
Proof.
  apply (C8_unseen_category demo demo_ambient "valve_butterfly" "Low" 1 (lit 10) (of_int 1)
           (Offer.Build "valve_butterfly" "Gamma" "Chile" (lit 4.0) (lit 10.004) 20 0
              true false "EXW")
           "product_type" ["filter_cloth_roll"] (CStr "valve_butterfly")).
  - exact dbl_demo_schema_ok.
  - exact dbl_demo_model_answers.
  - exact dbl_demo_classes_covered.
  - simpl. tauto.
  - vm_compute. reflexivity.
  - exists (firstn 2 (df demo)), (skipn 3 (df demo)).
    split; [reflexivity|]. split; [reflexivity|]. split; [reflexivity|].
    intros row' Hin [Hp Hn]. simpl in Hin.
    repeat (destruct Hin as [<-|Hin]; [discriminate Hn|]). destruct Hin.
  - vm_compute. reflexivity.
  - vm_compute. reflexivity.
  - simpl. intros [H|[]]. discriminate H.
Defined.

End DoubleUnknown.

(** * Errors of the recommender and of the handler, on doubles *)

Section DoubleErrors.
Import Binary64 Double.








End DoubleErrors.

(** * The microservice and the interactive program, on doubles *)

Section DoubleTwins.
Import Binary64 Double.





End DoubleTwins.

(** * The feature names that are not columns *)

Section DoubleKeyError.
Import Binary64 Double.

Lemma dbl_columns_missing (input_data : gmap string cell) (names : list string)
    (name : string) :
  In name names -> input_data !! name = None -> columns input_data names = None.
Proof.
  induction names as [|n rest IH]; intros Hin Hn; [destruct Hin|].
  cbn [columns]. destruct Hin as [->|Hin].
  - rewrite Hn. reflexivity.
  - rewrite (IH Hin Hn). destruct (input_data !! n); reflexivity.
Qed.

Lemma dbl_missing_names (self : SupplierRecommender) (amb : Ambient) (row : Offer.t)
    (product_type urgency : string) (quantity : Z) (budget : float) (names : list string) :
  List.filter (fun name =>
      match Api.apply_encoding self amb
              (Api.input_frame amb row product_type urgency quantity budget) !! name with
      | Some _ => false
      | None => true
      end) names
  = List.filter (fun name => negb (str_in name input_columns)) names.
Proof.
  apply List.filter_ext. intros name.
  pose proof (dbl_encoded_column self amb row product_type urgency quantity budget name) as H.
  destruct (Api.apply_encoding _ _ _ !! name).
  - rewrite (proj2 (str_in_In _ _) H). reflexivity.
  - destruct (str_in name input_columns) eqn:E; [|reflexivity].
    exfalso. exact (H (proj1 (str_in_In _ _) E)).
Qed.

(** X11: when some feature names are not columns of [input_data], every
    request with a valid urgency for a product of the dataset raises the
    [KeyError] of [input_data[self.feature_names]]: its message names
    every feature name when none is a column, and otherwise lists, once
    each and in their order, the feature names that are not columns. *)
Theorem X11_missing_feature (self : SupplierRecommender) (amb : Ambient)
    (product_type urgency : string) (quantity : Z) (budget : float) :
  let missing :=
    List.filter (fun name => negb (str_in name input_columns)) (feature_names self) in
  In urgency valid_urgencies ->
  (exists row, In row (df self) /\ Offer.product_type row = product_type) ->
  missing <> [] ->
  Api.recommend_suppliers self amb product_type urgency quantity budget
    = Raises (KeyError
        (if Nat.eqb (length missing) (length (feature_names self))
         then NoneOf (feature_names self)
         else NotInIndex (Pandas.unique missing))).
Proof.
  intros missing. subst missing. intros Hu (row & Hrow & Hp) Hmissing.
  assert (Hin : In row (where_eq Offer.product_type product_type (df self))).
  { apply dbl_where_eq_In. split; assumption. }
  assert (Hex : exists name, In name (feature_names self) /\
                             negb (str_in name input_columns) = true).
  { destruct (List.filter (fun name => negb (str_in name input_columns))
                (feature_names self)) as [|name rest] eqn:Em; [contradiction|].
    exists name.
    apply (proj1 (List.filter_In (fun name => negb (str_in name input_columns)) name
                    (feature_names self))).
    rewrite Em. left. reflexivity. }
  destruct Hex as (name & Hname & Hnot).
  unfold Api.recommend_suppliers.
  rewrite (proj2 (str_in_In _ _) Hu). cbn [negb].
  destruct (where_eq Offer.product_type product_type (df self))
    as [|first others] eqn:Ew; [destruct Hin|].
  cbn [empty List.map Pandas.unique for_each].
  unfold Api.recommend_one at 1. unfold where_eq at 1. cbn [List.filter].
  rewrite String.eqb_refl. cbn [iloc0 bind].
  unfold Api.predict, select_columns.
  rewrite (dbl_columns_missing _ (feature_names self) name Hname).
  - rewrite dbl_missing_names.
    destruct (Nat.eqb _ _); reflexivity.
  - pose proof (dbl_encoded_column self amb first product_type urgency quantity budget
                  name) as H.
    destruct (Api.apply_encoding _ _ _ !! name); [|reflexivity].
    rewrite (proj2 (str_in_In _ _) H) in Hnot. discriminate Hnot.
Qed.

Lemma X11_missing_feature_witness :
  Api.recommend_suppliers demo_country demo_ambient "valve_butterfly" "High" 3 (lit 5000)
    = Raises (KeyError (NotInIndex ["country"; "quality_rating"])).
Proof.
  apply (X11_missing_feature demo_country demo_ambient "valve_butterfly" "High" 3 (lit 5000)).
  - simpl. tauto.
  - exists (Offer.Build "valve_butterfly" "Gamma" "Chile" (lit 4.0) (lit 10.004) 20 0
              true false "EXW").
    split; [right; right; left; reflexivity | reflexivity].
  - vm_compute. discriminate.
Defined.

End DoubleKeyError.
